(** * VideoDataset: index pruning, frame sampling and batch assembly

    A shallow embedding of
    [data_preparation/embeddings/video_embeddings/video_dataset.py]:
    the class [VideoDataset] ([__init__], [__len__], [__getitem__]) and the
    class [CustomBatch] behind [collate_fn].

    Python values are modelled as the code uses them: [str] as [string]
    (compared by code point), [int] as [Z], [float] as binary64 primitive
    floats, [list] as [list], the metadata [dict] as an association list in
    insertion order, exceptions as a sum type, and the mutable attributes of
    the dataset object as a record threaded through each call.  The video
    decoding library is an external collaborator and enters as an interface
    ([cv2.Library]). *)

From Stdlib Require Import ZArith List String Ascii Bool Lia Floats.
From Stdlib Require Import Sorted OrderedTypeEx.
Import ListNotations.

Local Open Scope string_scope.
Local Open Scope Z_scope.

(** ** Exceptions and the error monad *)

(** The exception classes the module can raise.  [NoVideo] and [NoFrames]
    come from [custom_exceptions]; the others are Python built-ins and the
    decoding library's [cv2.error]. *)

(** Modelled from the spec: the module [custom_exceptions] is imported but
    is not part of the sources; the spec describes [NoVideo(path)] and
    [NoFrames(path)] as two distinct conditions, each carrying the path. *)
Inductive exn : Type :=
| NoVideo (path : string)
| NoFrames (path : string)
| IndexError
| KeyError (key : string)
| TypeError
| ValueError
| OverflowError
| ZeroDivisionError
| Cv2Error (code : Z).

(** The outcome of evaluating Python code: a value or a raised exception. *)
Inductive result (A : Type) : Type :=
| Return (a : A)
| Raise (e : exn).

Arguments Return {A} a.
Arguments Raise {A} e.

Definition bind {A B : Type} (m : result A) (k : A -> result B) : result B :=
  match m with
  | Return a => k a
  | Raise e => Raise e
  end.

Notation "x <- m ;; k" := (bind m (fun x => k))
  (at level 61, m at next level, right associativity).

(** ** Python strings and paths *)

Module PyStr.

(** [s.split(sep)] for a separator of one character. *)
Fixpoint split (sep : ascii) (s : string) : list string :=
  match s with
  | EmptyString => [EmptyString]
  | String c r =>
      if Ascii.eqb c sep then EmptyString :: split sep r
      else match split sep r with
           | [] => [String c EmptyString]
           | h :: t => String c h :: t
           end
  end.

(** [os.path.basename(p)] ([posixpath]): what follows the last slash. *)
Definition basename (p : string) : string :=
  last (split "/"%char p) EmptyString.

(** [os.path.basename(x).split('.')[0]]: the file name up to its first dot. *)
Definition stem (p : string) : string :=
  hd EmptyString (split "."%char (basename p)).

(** [a <= b] on [str]: lexicographic on code points. *)
Definition leb (a b : string) : bool := String.leb a b.

(** [a < b] on [str]. *)
Definition lt (a b : string) : Prop := String.compare a b = Lt.

(** [x in l] for a list of strings. *)
Definition mem (x : string) (l : list string) : bool :=
  existsb (String.eqb x) l.

End PyStr.

(** ** [list.sort]: a stable ascending sort, optionally by key *)

Section Sort.
Context {A : Type} (key : A -> string).

Fixpoint insert_sorted (x : A) (l : list A) : list A :=
  match l with
  | [] => [x]
  | y :: l' =>
      if PyStr.leb (key x) (key y) then x :: y :: l'
      else y :: insert_sorted x l'
  end.

Fixpoint sort_by (l : list A) : list A :=
  match l with
  | [] => []
  | x :: l' => insert_sorted x (sort_by l')
  end.
End Sort.

Definition sort (l : list string) : list string := sort_by (fun x => x) l.

(** ** JSON values and the metadata dictionary *)

#[warnings="-register-all"]
Inductive json : Type :=
| JNull
| JBool (b : bool)
| JInt (n : Z)
| JFloat (x : float)
| JStr (s : string)
| JArr (l : list json)
| JObj (fields : list (string * json)).

(** A [dict] with string keys, in insertion order. *)
Definition dict (V : Type) : Type := list (string * V).

Definition keys {V : Type} (d : dict V) : list string := map fst d.

Fixpoint lookup {V : Type} (k : string) (d : dict V) : option V :=
  match d with
  | [] => None
  | (k', v) :: d' => if String.eqb k k' then Some v else lookup k d'
  end.

(** [d[k]] *)
Definition getitem_dict {V : Type} (d : dict V) (k : string) : result V :=
  match lookup k d with
  | Some v => Return v
  | None => Raise (KeyError k)
  end.

Definition remove_key {V : Type} (k : string) (d : dict V) : dict V :=
  filter (fun kv => negb (String.eqb k (fst kv))) d.

(** [d.pop(k)]: removes the key, [KeyError] when it is absent. *)
Definition pop {V : Type} (k : string) (d : dict V) : result (dict V) :=
  match lookup k d with
  | Some _ => Return (remove_key k d)
  | None => Raise (KeyError k)
  end.

(** [value[field]] on a loaded JSON value: only objects can be indexed by a
    string. *)
Definition getitem_json (v : json) (field : string) : result json :=
  match v with
  | JObj fields => getitem_dict fields field
  | _ => Raise TypeError
  end.

(** ** Index construction: the pruning of [__init__] (lines 28-42) *)

(** [done]: the sorted stems of the completed-output directory's entries. *)
Definition done_of (listing : list string) : list string :=
  sort (map PyStr.stem listing).

(** The metadata keys sorted by file name. *)
Definition sorted_keys {V : Type} (metadata : dict V) : list string :=
  sort_by PyStr.basename (keys metadata).

(** The scan over the sorted keys: [delete] grows by [p] when the stem of [p]
    occurs in [done[len(delete):]]. *)
Fixpoint scan (done : list string) (metadata_keys : list string)
    (delete : list string) : list string :=
  match metadata_keys with
  | [] => delete
  | p :: rest =>
      let p_name := PyStr.stem p in
      if PyStr.mem p_name (skipn (List.length delete) done)
      then scan done rest (delete ++ [p])
      else scan done rest delete
  end.

Definition delete_list {V : Type} (metadata : dict V) (listing : list string)
  : list string :=
  scan (done_of listing) (sorted_keys metadata) [].

(** [for d in delete: self.metadata.pop(d)] *)
Fixpoint pop_all {V : Type} (delete : list string) (metadata : dict V)
  : result (dict V) :=
  match delete with
  | [] => Return metadata
  | d :: rest => m <- pop d metadata ;; pop_all rest m
  end.

Definition prune {V : Type} (metadata : dict V) (listing : list string)
  : result (dict V) :=
  pop_all (delete_list metadata listing) metadata.

(** The oracle of the specification: a key goes when its stem is among the
    stems of the directory's entries. *)
Definition stem_done (listing : list string) (p : string) : bool :=
  PyStr.mem (PyStr.stem p) (map PyStr.stem listing).

(** The keys are aligned with the directory when, in the order the scan
    visits them, their stems strictly increase: no two keys share a stem
    and the order of the file names is the order of the stems. *)
Definition aligned {V : Type} (metadata : dict V) : Prop :=
  StronglySorted PyStr.lt (map PyStr.stem (sorted_keys metadata)).

(** ** Floats: [int(x)] and [round(x)] *)

Module PyFloat.

(** The integer below the magnitude [m * 2^e] and what is left of it. *)
Definition magnitude (m : positive) (e : Z) : Z :=
  if 0 <=? e then Z.shiftl (Zpos m) e else Z.shiftr (Zpos m) (- e).

Definition signed (s : bool) (n : Z) : Z := if s then - n else n.

(** [int(x)] on a float: truncation toward zero; [ValueError] on a NaN and
    [OverflowError] on an infinity. *)
Definition int (x : float) : result Z :=
  match Prim2SF x with
  | S754_zero _ => Return 0
  | S754_finite s m e => Return (signed s (magnitude m e))
  | S754_infinity _ => Raise OverflowError
  | S754_nan => Raise ValueError
  end.

(** [round(x)] on a float: the nearest integer, a tie going to the even
    one. *)
Definition round (x : float) : result Z :=
  match Prim2SF x with
  | S754_zero _ => Return 0
  | S754_finite s m e =>
      let q := magnitude m e in
      if 0 <=? e then Return (signed s q)
      else
        let twice_rest := 2 * (Zpos m - Z.shiftl q (- e)) in
        let unit := Z.shiftl 1 (- e) in
        let up :=
          (unit <? twice_rest) || ((unit =? twice_rest) && Z.odd q) in
        Return (signed s (if up then q + 1 else q))
  | S754_infinity _ => Raise OverflowError
  | S754_nan => Raise ValueError
  end.

End PyFloat.

(** ** The decoding library *)

(** What the code uses of [cv2] and [numpy]: decoded images with a shape,
    the colour conversion and the resize, either of which can fail with an
    error code ([cv2.error]).  [cv2.resize m (w, h)] is
    [cv2.resize(m, (w, h))], whose result has [h] rows and [w] columns. *)
Module cv2.

Inductive ColorConversionCode : Type :=
| COLOR_BGR2RGB.

Class Library : Type := {
  Mat : Type;
  shape : Mat -> Z * Z;
  cvtColor : Mat -> ColorConversionCode -> Z + Mat;
  resize : Mat -> Z * Z -> Z + Mat;
  resize_shape :
    forall m w h m', resize m (w, h) = inr m' -> shape m' = (h, w)
}.

End cv2.

(** A call into the library, with its error code raised as [cv2.error]. *)
Definition call {A : Type} (r : Z + A) : result A :=
  match r with
  | inl code => Raise (Cv2Error code)
  | inr a => Return a
  end.

Section Dataset.
Context `{cv : cv2.Library}.

(** A video file as [cv2.VideoCapture] presents it: the three properties
    the code reads, and for each position what [retrieve] yields once that
    frame has been grabbed ([None] when it reports no success). *)
Record video : Type := {
  CAP_PROP_FRAME_COUNT : float;
  CAP_PROP_FRAME_HEIGHT : float;
  CAP_PROP_FRAME_WIDTH : float;
  decoded : nat -> option cv2.Mat
}.

(** An open capture: the video and the number of frames grabbed so far. *)
Record VideoCapture : Type := {
  source : video;
  grabbed : nat
}.

Definition grab (v_cap : VideoCapture) : VideoCapture :=
  {| source := source v_cap; grabbed := S (grabbed v_cap) |}.

(** [v_cap.retrieve()]: decodes the frame grabbed last. *)
Definition retrieve (v_cap : VideoCapture) : option cv2.Mat :=
  match grabbed v_cap with
  | O => None
  | S n => decoded (source v_cap) n
  end.

(** The attributes of a [VideoDataset] object. *)
Record VideoDataset : Type := {
  metadata : dict json;
  path_to_all_videos : list string;
  window : Z;
  resize : float;
  transform : option (list cv2.Mat -> list cv2.Mat);
  error_paths : list exn;
  max_v_len : Z
}.

(** [__init__], from the loaded metadata and the listing of [check_path]. *)
Definition init (loaded : dict json) (listing : list string) (window : Z)
    (resize : float) (transform : option (list cv2.Mat -> list cv2.Mat))
  : result VideoDataset :=
  m <- prune loaded listing ;;
  Return {| metadata := m;
            path_to_all_videos := keys m;
            window := window;
            resize := resize;
            transform := transform;
            error_paths := [];
            max_v_len := 1440 |}.

(** [__len__] *)
Definition len (self : VideoDataset) : Z :=
  Z.of_nat (List.length (path_to_all_videos self)).

(** [l[idx]] on a list, negative indices counting from the end. *)
Definition getitem_list {A : Type} (l : list A) (idx : Z) : result A :=
  let n := Z.of_nat (List.length l) in
  let i := if idx <? 0 then idx + n else idx in
  if (i <? 0) || (n <=? i) then Raise IndexError
  else match nth_error l (Z.to_nat i) with
       | Some a => Return a
       | None => Raise IndexError
       end.

(** [range(n)] *)
Definition range (n : Z) : list Z :=
  map Z.of_nat (seq 0 (Z.to_nat n)).

(** [range(n)[:stop]] *)
Definition range_upto (n stop : Z) : list Z :=
  let size := Z.max n 0 in
  range (if stop <? 0 then size + stop else Z.min size stop).

(** [a % b] *)
Definition py_mod (a b : Z) : result Z :=
  if b =? 0 then Raise ZeroDivisionError else Return (a mod b).

(** The loop of lines 82-98 over the remaining positions. *)
Fixpoint extract (window v_width v_height : Z) (positions : list Z)
    (v_cap : VideoCapture) (frames : list cv2.Mat) : result (list cv2.Mat) :=
  match positions with
  | [] => Return frames
  | i :: rest =>
      let v_cap := grab v_cap in
      r <- py_mod i window ;;
      if r =? 0 then
        match retrieve v_cap with
        | None => extract window v_width v_height rest v_cap frames
        | Some frame =>
            frame <- call (cv2.cvtColor frame cv2.COLOR_BGR2RGB) ;;
            frame <- call (cv2.resize frame (v_width, v_height)) ;;
            extract window v_width v_height rest v_cap (frames ++ [frame])
        end
      else extract window v_width v_height rest v_cap frames
  end.

(** A sample: [(video_path, frames, label)]. *)
Definition sample : Type := string * list cv2.Mat * json.

(** The body of the [try] block of [__getitem__] (lines 64-103);
    [files] is what [cv2.VideoCapture(path)] opens. *)
Definition getitem_try (files : string -> video) (self : VideoDataset)
    (idx : Z) : result sample :=
  video_path <- getitem_list (path_to_all_videos self) idx ;;
  let v_cap := {| source := files video_path; grabbed := O |} in
  v_len <- PyFloat.int (CAP_PROP_FRAME_COUNT (source v_cap)) ;;
  if v_len =? 0 then Raise (NoVideo video_path)
  else
    v_height <- PyFloat.int
      (CAP_PROP_FRAME_HEIGHT (source v_cap) * resize self)%float ;;
    v_width <- PyFloat.int
      (CAP_PROP_FRAME_WIDTH (source v_cap) * resize self)%float ;;
    frames <- extract (window self) v_width v_height
                (range_upto v_len (max_v_len self)) v_cap [] ;;
    match frames with
    | _ :: _ =>
        record <- getitem_dict (metadata self) video_path ;;
        label <- getitem_json record "label" ;;
        Return (video_path, frames, label)
    | [] => Raise (NoFrames video_path)
    end.

(** The interpreter state a call can change: the dataset object and the
    lines printed. *)
Record state : Type := {
  self_ : VideoDataset;
  stdout : list string
}.

Definition append_error (self : VideoDataset) (e : exn) : VideoDataset :=
  {| metadata := metadata self;
     path_to_all_videos := path_to_all_videos self;
     window := window self;
     resize := resize self;
     transform := transform self;
     error_paths := error_paths self ++ [e];
     max_v_len := max_v_len self |}.

(** An [except] clause of lines 106-113: print, record, return [None]. *)
Definition handled (st : state) (e : exn) (line : string)
  : result (option sample) * state :=
  (Return None,
   {| self_ := append_error (self_ st) e; stdout := stdout st ++ [line] |}).

(** [__getitem__] *)
Definition getitem (files : string -> video) (st : state) (idx : Z)
  : result (option sample) * state :=
  match getitem_try files (self_ st) idx with
  | Return s => (Return (Some s), st)
  | Raise (NoVideo p) =>
      handled st (NoVideo p) ("Video " ++ p ++ " not found")
  | Raise (NoFrames p) =>
      handled st (NoFrames p) ("Video " ++ p ++ " has no frames")
  | Raise e => (Raise e, st)
  end.

(** A run of calls [dataset[i]] for [i] in [idxs], the caller going on
    after each one; the outcomes in order and the final state. *)
Fixpoint fetches (files : string -> video) (st : state) (idxs : list Z)
  : list (result (option sample)) * state :=
  match idxs with
  | [] => ([], st)
  | idx :: rest =>
      let '(r, st1) := getitem files st idx in
      let '(rs, st2) := fetches files st1 rest in
      (r :: rs, st2)
  end.

(** ** Batch assembly *)

(** An element of a Python tuple returned by [__getitem__]. *)
Inductive pyobj : Type :=
| PyStr_ (s : string)
| PyArray (frames : list cv2.Mat)
| PyJson (v : json).

Definition as_tuple (s : sample) : list pyobj :=
  let '(video_path, frames, label) := s in
  [PyStr_ video_path; PyArray frames; PyJson label].

(** The first element of every row, unless a row is exhausted. *)
Fixpoint heads {A : Type} (rows : list (list A)) : option (list A) :=
  match rows with
  | [] => Some []
  | [] :: _ => None
  | (x :: _) :: rest => option_map (cons x) (heads rest)
  end.

(** [n] rounds of [zip]: each takes one element of every row and stops at
    the first exhausted row. *)
Fixpoint zip_rounds {A : Type} (n : nat) (rows : list (list A))
  : list (list A) :=
  match n with
  | O => []
  | S n' =>
      match heads rows with
      | None => []
      | Some hs => hs :: zip_rounds n' (map (@tl A) rows)
      end
  end.

(** [list(zip( *rows))], the rows unpacked into the arguments of [zip]: no
    row gives no tuple. *)
Definition zip_star {A : Type} (rows : list (list A)) : list (list A) :=
  match rows with
  | [] => []
  | r :: _ => zip_rounds (List.length r) rows
  end.

(** [filter(lambda x: x is not None, data)] *)
Fixpoint filter_not_None {A : Type} (data : list (option A)) : list A :=
  match data with
  | [] => []
  | None :: rest => filter_not_None rest
  | Some a :: rest => a :: filter_not_None rest
  end.

(** The attributes of a [CustomBatch] object. *)
Record CustomBatch : Type := {
  video_path : list pyobj;
  frame : list pyobj;
  label : list pyobj
}.

(** [CustomBatch.__init__] *)
Definition CustomBatch_init (data : list (option (list pyobj)))
  : result CustomBatch :=
  let transposed_data := zip_star (filter_not_None data) in
  c0 <- getitem_list transposed_data 0 ;;
  c1 <- getitem_list transposed_data 1 ;;
  c2 <- getitem_list transposed_data 2 ;;
  Return {| video_path := c0; frame := c1; label := c2 |}.

(** [collate_fn] *)
Definition collate_fn (batch : list (option (list pyobj)))
  : result CustomBatch :=
  CustomBatch_init batch.

End Dataset.

(** ** A concrete decoder, to run the model on examples *)

Module Demo.

(** An image reduced to its shape, its channel order and the position it
    was decoded from. *)
Record image : Type := {
  rows : Z;
  cols : Z;
  rgb : bool;
  position : nat
}.

Definition empty (m : image) : bool := (rows m <=? 0) || (cols m <=? 0).

(** Both operations refuse an empty image, and the resize a target size
    that is not positive, with the library's assertion code. *)
Definition convert (m : image) (code : cv2.ColorConversionCode)
  : Z + image :=
  if empty m then inl (-215)
  else match code with
       | cv2.COLOR_BGR2RGB =>
           inr {| rows := rows m; cols := cols m; rgb := negb (rgb m);
                  position := position m |}
       end.

Definition scale (m : image) (dsize : Z * Z) : Z + image :=
  let '(w, h) := dsize in
  if empty m || (w <=? 0) || (h <=? 0) then inl (-215)
  else inr {| rows := h; cols := w; rgb := rgb m; position := position m |}.

Lemma scale_shape (m : image) (w h : Z) (m' : image) :
  scale m (w, h) = inr m' -> (rows m', cols m') = (h, w).
Proof.
  unfold scale. destruct (empty m || (w <=? 0) || (h <=? 0)); [discriminate|].
  intros [= <-]. reflexivity.
Qed.

#[export] Instance cv : cv2.Library := {|
  cv2.Mat := image;
  cv2.shape := fun m => (rows m, cols m);
  cv2.cvtColor := convert;
  cv2.resize := scale;
  cv2.resize_shape := scale_shape
|}.

(** The frame decoded at position [n], and what the loop makes of it. *)
Definition bgr (h w : Z) (n : nat) : image :=
  {| rows := h; cols := w; rgb := false; position := n |}.

Definition resized (h w : Z) (n : nat) : image :=
  {| rows := h; cols := w; rgb := true; position := n |}.

(** A video of [n] frames of [h] by [w], all of which decode. *)
Definition clip (n : nat) (h w : Z) : video :=
  {| CAP_PROP_FRAME_COUNT := PrimFloat.of_uint63 (Uint63.of_nat n);
     CAP_PROP_FRAME_HEIGHT := PrimFloat.of_uint63 (Uint63.of_Z h);
     CAP_PROP_FRAME_WIDTH := PrimFloat.of_uint63 (Uint63.of_Z w);
     decoded := fun i => if (i <? n)%nat then Some (bgr h w i) else None |}.

(** The same video when no frame decodes. *)
Definition broken (n : nat) (h w : Z) : video :=
  {| CAP_PROP_FRAME_COUNT := PrimFloat.of_uint63 (Uint63.of_nat n);
     CAP_PROP_FRAME_HEIGHT := PrimFloat.of_uint63 (Uint63.of_Z h);
     CAP_PROP_FRAME_WIDTH := PrimFloat.of_uint63 (Uint63.of_Z w);
     decoded := fun _ => None |}.

(** What [cv2.VideoCapture] gives for a file that cannot be read. *)
Definition unreadable : video := broken 0 0 0.

Definition files (path : string) : video :=
  if String.eqb path "five.mp4" then clip 5 1083 1923
  else if String.eqb path "dark.mp4" then broken 5 1080 1920
  else if String.eqb path "flat.mp4" then clip 5 1 1920
  else unreadable.

Definition loaded : dict json :=
  [ ("five.mp4", JObj [("label", JStr "REAL")]);
    ("dark.mp4", JObj [("label", JStr "FAKE")]);
    ("gone.mp4", JObj [("label", JStr "FAKE")]);
    ("flat.mp4", JObj [("label", JStr "REAL")]);
    ("seen.mp4", JObj [("label", JStr "REAL")]) ].

Definition listing : list string := ["seen.npy"].

(** The dataset object [VideoDataset(..., window, resize, None, ...)]
    over [loaded] and [listing]. *)
Definition dataset (window : Z) (resize : float) : VideoDataset :=
  {| metadata := removelast loaded;
     path_to_all_videos := keys (removelast loaded);
     window := window;
     resize := resize;
     transform := None;
     error_paths := [];
     max_v_len := 1440 |}.

Definition start (window : Z) (resize : float) : state :=
  {| self_ := dataset window resize; stdout := [] |}.

(** The items of a batch of four calls, two of which failed. *)
Definition two_of_four : list (option (@sample cv)) :=
  [ None;
    Some ("five.mp4", [bgr 270 480 0], JStr "REAL");
    None;
    Some ("flat.mp4", [bgr 1 480 0; bgr 1 480 1], JStr "FAKE") ].

End Demo.

(** ** Notions the properties are stated with *)

Section Reference.
Context `{cv : cv2.Library}.

(** [ceil(a / b)] for a positive [b]. *)
Definition ceil_div (a b : Z) : Z := (a + b - 1) / b.

(** The positions below [n] that the stride [w] selects. *)
Definition sampled (n w : Z) : list Z :=
  filter (fun i => i mod w =? 0) (range n).

Definition decodes (v : video) (i : Z) : bool :=
  match decoded v (Z.to_nat i) with
  | Some _ => true
  | None => false
  end.

(** The selected positions whose decode failed, counted. *)
Definition failed (v : video) (n w : Z) : Z :=
  Z.of_nat (List.length (filter (fun i => negb (decodes v i)) (sampled n w))).

(** The selected positions that decode, and the frames decoded there. *)
Definition kept (v : video) (n w : Z) : list Z :=
  filter (decodes v) (sampled n w).

Definition frames_at (v : video) (positions : list Z) : list cv2.Mat :=
  flat_map (fun i => match decoded v (Z.to_nat i) with
                     | Some m => [m]
                     | None => []
                     end) positions.

(** What the loop does to a decoded frame (lines 94-95). *)
Definition process (v_width v_height : Z) (m : cv2.Mat) : result cv2.Mat :=
  m <- call (cv2.cvtColor m cv2.COLOR_BGR2RGB) ;;
  call (cv2.resize m (v_width, v_height)).

(** Left to right, stopping at the first exception. *)
Fixpoint mapM {A B : Type} (f : A -> result B) (l : list A)
  : result (list B) :=
  match l with
  | [] => Return []
  | a :: l' => b <- f a ;; bs <- mapM f l' ;; Return (b :: bs)
  end.

(** The two conditions [__getitem__] handles itself. *)
Definition recoverable (e : exn) : bool :=
  match e with
  | NoVideo _ | NoFrames _ => true
  | _ => false
  end.

(** The path an exception of either kind carries. *)
Definition exn_path (e : exn) : option string :=
  match e with
  | NoVideo p | NoFrames p => Some p
  | _ => None
  end.

(** [[dataset[i] for i in idxs]]: the items of one batch, as the loading
    framework collects them; the first exception ends it. *)
Fixpoint fetch_batch (files : string -> video) (st : state)
    (idxs : list Z) : result (list (option sample)) * state :=
  match idxs with
  | [] => (Return [], st)
  | idx :: rest =>
      match getitem files st idx with
      | (Return item, st1) =>
          match fetch_batch files st1 rest with
          | (Return items, st2) => (Return (item :: items), st2)
          | (Raise e, st2) => (Raise e, st2)
          end
      | (Raise e, st1) => (Raise e, st1)
      end
  end.

(** The item a call yields when its [try] block ends in [r] and no
    exception leaves the call. *)
Definition item_of (r : result sample) : option sample :=
  match r with
  | Return s => Some s
  | Raise _ => None
  end.

(** The [try] block returned or raised one of the two handled
    conditions. *)
Definition tolerated (r : result sample) : bool :=
  match r with
  | Return _ => true
  | Raise e => recoverable e
  end.

(** Two dataset objects agree on everything [__init__] set, the error
    list apart. *)
Definition same_config (a b : VideoDataset) : Prop :=
  metadata a = metadata b /\
  path_to_all_videos a = path_to_all_videos b /\
  window a = window b /\
  resize a = resize b /\
  transform a = transform b /\
  max_v_len a = max_v_len b.

(** The calls of a run that returned [None]. *)
Definition returned_None (r : result (option sample)) : bool :=
  match r with
  | Return None => true
  | _ => false
  end.

Definition failures (rs : list (result (option sample))) : nat :=
  List.length (filter returned_None rs).

(** A batch as [collate_fn] receives it from the items of [__getitem__]. *)
Definition as_batch (items : list (option sample))
  : list (option (list pyobj)) :=
  map (option_map as_tuple) items.


End Reference.

(** ** Further notions and cases *)


Module Cases.
Import Demo.

(** A stream whose container reports a negative frame count. *)
Definition stream : video :=
  {| CAP_PROP_FRAME_COUNT := (-1)%float;
     CAP_PROP_FRAME_HEIGHT := 1080%float;
     CAP_PROP_FRAME_WIDTH := 1920%float;
     decoded := fun i => Some (bgr 1080 1920 i) |}.

(** Five decodable frames, then a trailer that differs from [clip]; the odd
    positions differ too. *)
Definition recut : video :=
  {| CAP_PROP_FRAME_COUNT := CAP_PROP_FRAME_COUNT (clip 5 1083 1923);
     CAP_PROP_FRAME_HEIGHT := 1083%float;
     CAP_PROP_FRAME_WIDTH := 1923%float;
     decoded := fun i => if Nat.even i then decoded (clip 5 1083 1923) i
                         else None |}.

Definition files (path : string) : video :=
  if String.eqb path "live.webm" then stream
  else if String.eqb path "five.mp4" then recut
  else Demo.files path.

(** A metadata file with a record that has no label and one that is no
    object. *)
Definition loaded : dict json :=
  [ ("five.mp4", JObj [("split", JStr "train")]);
    ("live.webm", JObj [("label", JStr "REAL")]);
    ("dark.mp4", JStr "FAKE") ].

Definition dataset (window : Z) (resize : float) : VideoDataset :=
  {| metadata := loaded;
     path_to_all_videos := keys loaded;
     window := window;
     resize := resize;
     transform := None;
     error_paths := [];
     max_v_len := 1440 |}.

Definition start (window : Z) (resize : float) : state :=
  {| self_ := dataset window resize; stdout := [] |}.

End Cases.

(** * Properties *)

Local Open Scope list_scope.

(** ** Pruning *)

Section Pruning.
Context {V : Type}.

Lemma mem_In (x : string) (l : list string) :
  PyStr.mem x l = true <-> In x l.
Proof.
  unfold PyStr.mem. rewrite existsb_exists. split.
  - intros (y & Hy & E). apply String.eqb_eq in E. now subst.
  - intros H. exists x. split; [assumption | apply String.eqb_refl].
Qed.

Lemma In_insert_sorted {A : Type} (key : A -> string) (x y : A) (l : list A) :
  In y (insert_sorted key x l) <-> y = x \/ In y l.
Proof.
  induction l as [|z l IH]; simpl.
  - intuition congruence.
  - destruct (PyStr.leb (key x) (key z)); simpl; [intuition congruence|].
    rewrite IH. intuition congruence.
Qed.

Lemma In_sort_by {A : Type} (key : A -> string) (y : A) (l : list A) :
  In y (sort_by key l) <-> In y l.
Proof.
  induction l as [|x l IH]; simpl; [reflexivity|].
  rewrite In_insert_sorted, IH. intuition congruence.
Qed.

Lemma In_skipn {A : Type} (x : A) (n : nat) (l : list A) :
  In x (skipn n l) -> In x l.
Proof.
  revert l. induction n as [|n IH]; intros [|y l]; simpl; auto.
Qed.

(** Whatever the scan adds to [delete] is a key whose stem is done. *)
Lemma scan_sound (done ks delete : list string) (p : string) :
  In p (scan done ks delete) ->
  In p delete \/ (In p ks /\ In (PyStr.stem p) done).
Proof.
  revert delete. induction ks as [|k ks IH]; intros delete; simpl.
  - auto.
  - destruct (PyStr.mem (PyStr.stem k) (skipn (List.length delete) done)) eqn:E.
    + intros H. apply IH in H. destruct H as [H | [H1 H2]].
      * apply in_app_or in H. destruct H as [H | [<- | []]]; [now left|].
        right. split; [now left|].
        apply mem_In in E. eapply In_skipn; eassumption.
      * right; split; [now right | assumption].
    + intros H. apply IH in H. destruct H as [H | [H1 H2]]; [now left|].
      right; split; [now right | assumption].
Qed.

Lemma delete_list_sound (metadata : dict V) (listing : list string)
    (p : string) :
  In p (delete_list metadata listing) ->
  In p (keys metadata) /\ stem_done listing p = true.
Proof.
  unfold delete_list. intros H. apply scan_sound in H.
  destruct H as [[] | [H1 H2]]. split.
  - unfold sorted_keys in H1. now apply In_sort_by in H1.
  - unfold stem_done. apply mem_In.
    unfold done_of, sort in H2. now apply In_sort_by in H2.
Qed.

Lemma lookup_In (k : string) (d : dict V) :
  In k (keys d) -> exists v, lookup k d = Some v.
Proof.
  induction d as [|[k' v] d IH]; simpl; [intros []|].
  intros [-> | H].
  - rewrite String.eqb_refl. eauto.
  - destruct (String.eqb k k'); eauto.
Qed.

Lemma In_keys_remove_key (k k' : string) (d : dict V) :
  In k' (keys (remove_key k d)) <-> In k' (keys d) /\ k' <> k.
Proof.
  unfold keys, remove_key. induction d as [|[k0 v] d IH]; simpl.
  - tauto.
  - destruct (String.eqb k k0) eqn:E; simpl.
    + apply String.eqb_eq in E. subst k0. rewrite IH. intuition congruence.
    + apply String.eqb_neq in E. rewrite IH. intuition congruence.
Qed.

(** The removals succeed when the keys to delete are distinct keys of the
    dictionary, and leave the other keys. *)
Lemma pop_all_keys (delete : list string) (d : dict V) :
  NoDup delete -> incl delete (keys d) ->
  exists d', pop_all delete d = Return d' /\
    forall k, In k (keys d') <-> In k (keys d) /\ ~ In k delete.
Proof.
  revert d. induction delete as [|x delete IH]; intros d ND Hincl; simpl.
  - exists d. split; [reflexivity | tauto].
  - inversion ND as [|? ? Hx ND']; subst.
    destruct (lookup_In x d) as [v Hv]; [apply Hincl; now left|].
    unfold pop. rewrite Hv. simpl.
    destruct (IH (remove_key x d) ND') as (d' & E & Hk).
    + intros y Hy. apply In_keys_remove_key. split.
      * apply Hincl. now right.
      * intros ->. contradiction.
    + exists d'. split; [exact E|].
      intros k. rewrite Hk, In_keys_remove_key. intuition congruence.
Qed.

Lemma NoDup_insert_sorted {A : Type} (key : A -> string) (x : A) (l : list A) :
  ~ In x l -> NoDup l -> NoDup (insert_sorted key x l).
Proof.
  induction l as [|y l IH]; simpl; intros Hx ND.
  - constructor; [tauto | constructor].
  - destruct (PyStr.leb (key x) (key y)).
    + constructor; [simpl; tauto | assumption].
    + inversion ND; subst. constructor.
      * rewrite In_insert_sorted. intuition congruence.
      * apply IH; tauto.
Qed.

Lemma NoDup_sort_by {A : Type} (key : A -> string) (l : list A) :
  NoDup l -> NoDup (sort_by key l).
Proof.
  induction 1 as [|x l Hx ND IH]; simpl; [constructor|].
  apply NoDup_insert_sorted; [|assumption].
  now rewrite In_sort_by.
Qed.

Lemma scan_NoDup (done ks delete : list string) :
  NoDup (delete ++ ks) -> NoDup (scan done ks delete).
Proof.
  revert delete. induction ks as [|k ks IH]; intros delete ND; simpl.
  - now rewrite app_nil_r in ND.
  - destruct (PyStr.mem _ _).
    + apply IH. now rewrite <- app_assoc.
    + apply IH. eapply NoDup_remove_1. exact ND.
Qed.

(** On a dictionary (distinct keys) the pruning never raises, and a key
    it removes has its stem among the stems of the directory. *)
Lemma prune_only_done (metadata : dict V) (listing : list string) :
  NoDup (keys metadata) ->
  exists m, prune metadata listing = Return m /\
    (forall k, In k (keys m) <->
               In k (keys metadata) /\ ~ In k (delete_list metadata listing)) /\
    (forall k, In k (keys metadata) -> ~ In k (keys m) ->
               stem_done listing k = true).
Proof.
  intros ND. unfold prune.
  destruct (pop_all_keys (delete_list metadata listing) metadata)
    as (m & E & Hk).
  - unfold delete_list. apply scan_NoDup. simpl.
    unfold sorted_keys. now apply NoDup_sort_by.
  - intros k Hk. now apply delete_list_sound in Hk.
  - exists m. split; [exact E|]. split; [exact Hk|].
    intros k Hin Hout.
    destruct (in_dec string_dec k (delete_list metadata listing)) as [Hd|Hd].
    + now apply delete_list_sound in Hd.
    + exfalso. apply Hout. apply Hk. tauto.
Qed.

End Pruning.

(** *** When the scan agrees with the oracle *)

Section Aligned.
Context {V : Type}.

Lemma lt_irrefl (a : string) : ~ PyStr.lt a a.
Proof.
  unfold PyStr.lt. intros H. apply String_as_OT.cmp_lt in H.
  apply String_as_OT.lt_not_eq in H. apply H. reflexivity.
Qed.

Lemma leb_cases (a b : string) :
  PyStr.leb a b = true <-> PyStr.lt a b \/ a = b.
Proof.
  unfold PyStr.leb, String.leb, PyStr.lt.
  destruct (String.compare a b) eqn:E.
  - apply String_as_OT.cmp_eq in E. intuition.
  - intuition.
  - split; [discriminate|]. intros [H | ->]; [discriminate|].
    assert (R : String.compare b b = Eq) by now apply String_as_OT.cmp_eq.
    congruence.
Qed.

Lemma lt_trans (a b c : string) : PyStr.lt a b -> PyStr.lt b c -> PyStr.lt a c.
Proof.
  unfold PyStr.lt. intros H1 H2.
  apply String_as_OT.cmp_lt. apply String_as_OT.cmp_lt in H1, H2.
  eapply String_as_OT.lt_trans; eassumption.
Qed.

Lemma leb_lt_trans (a b c : string) :
  PyStr.leb a b = true -> PyStr.lt b c -> PyStr.lt a c.
Proof.
  intros H1 H2. apply leb_cases in H1. destruct H1 as [H1 | ->];
    [eapply lt_trans; eassumption | assumption].
Qed.

Lemma leb_trans (a b c : string) :
  PyStr.leb a b = true -> PyStr.leb b c = true -> PyStr.leb a c = true.
Proof.
  intros H1 H2. apply leb_cases in H2. destruct H2 as [H2 | <-];
    [|assumption].
  apply leb_cases. left. eapply leb_lt_trans; eassumption.
Qed.

Lemma leb_false (a b : string) :
  PyStr.leb a b = false -> PyStr.leb b a = true.
Proof.
  intros H. destruct (String.leb_total a b) as [T | T]; [|exact T].
  unfold PyStr.leb in H. congruence.
Qed.

(** [list.sort] sorts. *)
Lemma insert_sorted_sorted (x : string) (l : list string) :
  StronglySorted (fun a b => PyStr.leb a b = true) l ->
  StronglySorted (fun a b => PyStr.leb a b = true)
    (insert_sorted (fun s => s) x l).
Proof.
  induction 1 as [|y l SS IH Hy]; simpl.
  - constructor; constructor.
  - destruct (PyStr.leb x y) eqn:E.
    + constructor; [constructor; assumption|].
      constructor; [assumption|].
      eapply Forall_impl; [|exact Hy]. cbn. intros z Hz.
      eapply leb_trans; eassumption.
    + constructor; [assumption|].
      apply Forall_forall. intros z Hz. apply In_insert_sorted in Hz.
      destruct Hz as [-> | Hz]; [now apply leb_false|].
      rewrite Forall_forall in Hy. now apply Hy.
Qed.

Lemma sort_sorted (l : list string) :
  StronglySorted (fun a b => PyStr.leb a b = true) (sort l).
Proof.
  unfold sort. induction l as [|x l IH]; simpl; [constructor|].
  now apply insert_sorted_sorted.
Qed.

Lemma StronglySorted_skipn {A : Type} (R : A -> A -> Prop) (n : nat)
    (l : list A) :
  StronglySorted R l -> StronglySorted R (skipn n l).
Proof.
  revert l. induction n as [|n IH]; intros l SS; [exact SS|].
  destruct l as [|x l]; [exact SS|]. simpl. apply IH. now inversion SS.
Qed.

Lemma firstn_S_skipn {A : Type} (n : nat) (l : list A) (y : A) (t : list A) :
  skipn n l = y :: t -> firstn (S n) l = firstn n l ++ [y].
Proof.
  revert l. induction n as [|n IH]; intros l E.
  - simpl in E. subst l. reflexivity.
  - destruct l as [|x l]; [discriminate|]. simpl in E.
    change (firstn (S (S n)) (x :: l)) with (x :: firstn (S n) l).
    rewrite (IH _ E). reflexivity.
Qed.

Lemma scan_incl (done ks delete : list string) (p : string) :
  In p delete -> In p (scan done ks delete).
Proof.
  revert delete. induction ks as [|k ks IH]; intros delete H; simpl.
  - exact H.
  - destruct (PyStr.mem _ _); apply IH; [apply in_or_app; now left | exact H].
Qed.

(** The invariant of the scan on aligned keys: the entries of [done] it has
    stepped over are below the stems still to come. *)
Lemma scan_complete (done ks delete : list string) :
  StronglySorted (fun a b => PyStr.leb a b = true) done ->
  StronglySorted PyStr.lt (map PyStr.stem ks) ->
  (forall x q, In x (firstn (List.length delete) done) -> In q ks ->
               PyStr.lt x (PyStr.stem q)) ->
  forall q, In q ks -> In (PyStr.stem q) done ->
            In q (scan done ks delete).
Proof.
  intros Hdone. revert delete.
  induction ks as [|p rest IH]; intros delete Hks Inv q Hq Hin; [destruct Hq|].
  cbn [map] in Hks. inversion Hks as [|? ? Hrest Hp]; subst.
  rewrite Forall_forall in Hp.
  cbn [scan].
  destruct (PyStr.mem (PyStr.stem p) (skipn (List.length delete) done)) eqn:E.
  - destruct Hq as [<- | Hq].
    + apply scan_incl. apply in_or_app. right. now left.
    + apply IH; try assumption.
      intros x q' Hx Hq'. rewrite length_app, Nat.add_1_r in Hx.
      apply mem_In in E.
      destruct (skipn (List.length delete) done) as [|y t] eqn:Es;
        [destruct E|].
      rewrite (firstn_S_skipn _ _ _ _ Es) in Hx.
      apply in_app_or in Hx. destruct Hx as [Hx | [<- | []]].
      * apply (Inv x q' Hx). now right.
      * assert (Hy : PyStr.leb y (PyStr.stem p) = true).
        { pose proof (StronglySorted_skipn _ (List.length delete) _ Hdone)
            as SS.
          rewrite Es in SS. inversion SS as [|? ? _ Hall]; subst.
          destruct E as [<- | E].
          - apply leb_cases. now right.
          - rewrite Forall_forall in Hall. now apply Hall. }
        apply (leb_lt_trans _ _ _ Hy). apply Hp. now apply in_map.
  - destruct Hq as [<- | Hq].
    + exfalso. rewrite <- (firstn_skipn (List.length delete) done) in Hin.
      apply in_app_or in Hin. destruct Hin as [Hin | Hin].
      * apply (lt_irrefl (PyStr.stem p)). apply (Inv _ p Hin). now left.
      * apply mem_In in Hin. congruence.
    + apply IH; try assumption.
      intros x q' Hx Hq'. apply (Inv x q' Hx). now right.
Qed.

(** On a dictionary whose keys are aligned the pruning is the oracle: a
    key stays exactly when its stem is not among the stems of the
    directory. *)
Lemma prune_oracle_when_aligned (metadata : dict V) (listing : list string) :
  NoDup (keys metadata) ->
  aligned metadata ->
  exists m, prune metadata listing = Return m /\
    forall k, In k (keys metadata) ->
              (In k (keys m) <-> stem_done listing k = false).
Proof.
  intros ND Hal.
  destruct (prune_only_done metadata listing ND) as (m & E & Hk & Hsound).
  exists m. split; [exact E|]. intros k Hin. split.
  - intros Hm. destruct (stem_done listing k) eqn:Ed; [|reflexivity].
    exfalso. apply Hk in Hm. destruct Hm as [_ Hnd]. apply Hnd.
    unfold delete_list. apply scan_complete.
    + apply sort_sorted.
    + exact Hal.
    + intros x q [].
    + unfold sorted_keys. now apply In_sort_by.
    + unfold stem_done in Ed. apply mem_In in Ed.
      unfold done_of, sort. now apply In_sort_by.
  - intros Ed. destruct (in_dec string_dec k (keys m)) as [Hm | Hm];
      [exact Hm|].
    rewrite (Hsound k Hin Hm) in Ed. discriminate.
Qed.

End Aligned.

(** C1 (code defect).  The claim: a metadata key is removed exactly when its
    stem is among the stems of the completed-output directory's entries.
    The scan only searches [done[len(delete):]], so a done stem that sorts
    before an already deleted key's stem is missed.  With the keys
    [a-b.mp4] and [a.mp4] and the directory entries [a.npy] and [a-b.npy],
    the keys sort as [a-b.mp4; a.mp4] and the stems as [a; a-b]: the key
    [a.mp4] survives although its stem [a] is done.  The same happens when
    two keys share a stem ([x/a.mp4], [y/a.mp4], entry [a.npy]). *)
Theorem C1_done_key_survives_pruning :
  let metadata : dict json :=
    [("a-b.mp4", JObj [("label", JStr "REAL")]);
     ("a.mp4", JObj [("label", JStr "FAKE")])] in
  let listing := ["a.npy"; "a-b.npy"] in
  let twins : dict json :=
    [("x/a.mp4", JObj [("label", JStr "REAL")]);
     ("y/a.mp4", JObj [("label", JStr "FAKE")])] in
  done_of listing = ["a"; "a-b"] /\
  sorted_keys metadata = ["a-b.mp4"; "a.mp4"] /\
  prune metadata listing = Return [("a.mp4", JObj [("label", JStr "FAKE")])] /\
  stem_done listing "a.mp4" = true /\
  prune twins ["a.npy"] = Return [("y/a.mp4", JObj [("label", JStr "FAKE")])] /\
  stem_done ["a.npy"] "y/a.mp4" = true.
Proof. repeat split; vm_compute; reflexivity. Qed.

(** ** Batch assembly *)

Section Batch.
Context `{cv : cv2.Library}.




Lemma heads_map_nil {X A : Type} (x : X) (l : list X) :
  heads (map (fun _ => @nil A) (x :: l)) = None.
Proof. reflexivity. Qed.



Lemma filter_not_None_repeat {A : Type} (n : nat) :
  filter_not_None (repeat (@None A) n) = [].
Proof. induction n; simpl; auto. Qed.





(** C2 (code defect).  The claim: a batch made only of [None] gives three
    empty columns and no error.  The code filters the batch down to no
    row, [zip] of no row is the empty list, and [transposed_data[0]]
    raises [IndexError]: for every length of the batch, the empty one
    included. *)
Theorem C2_all_None_batch_raises (n : nat) :
  CustomBatch_init (repeat None n) = Raise IndexError /\
  collate_fn (repeat None n) = Raise IndexError /\
  zip_star (filter_not_None (repeat (@None (list pyobj)) n)) = [].
Proof.
  unfold collate_fn, CustomBatch_init.
  rewrite filter_not_None_repeat. repeat split; reflexivity.
Qed.


End Batch.

(** ** The sampling loop *)

Section Loop.
Context `{cv : cv2.Library}.

Lemma bind_Return_r {A : Type} (m : result A) : (x <- m ;; Return x) = m.
Proof. destruct m; reflexivity. Qed.

Lemma py_mod_nonzero (a b : Z) : b <> 0 -> py_mod a b = Return (a mod b).
Proof. intros H. unfold py_mod. apply Z.eqb_neq in H. now rewrite H. Qed.

Lemma retrieve_after_grab (v : video) (n : nat) :
  retrieve (grab {| source := v; grabbed := n |}) = decoded v n.
Proof. reflexivity. Qed.

Lemma frames_at_filter_decodes (v : video) (l : list Z) :
  frames_at v (filter (decodes v) l) = frames_at v l.
Proof.
  unfold frames_at, decodes. induction l as [|i l IH]; simpl; [reflexivity|].
  destruct (decoded v (Z.to_nat i)) eqn:E; simpl; rewrite ?E, IH; reflexivity.
Qed.

Lemma length_frames_at (v : video) (l : list Z) :
  List.length (frames_at v l) = List.length (filter (decodes v) l).
Proof.
  unfold frames_at, decodes. induction l as [|i l IH]; simpl; [reflexivity|].
  destruct (decoded v (Z.to_nat i)); simpl; now rewrite IH.
Qed.

Lemma frames_at_filter_decodes_length (v : video) (l : list Z) :
  List.length (filter (decodes v) (filter (decodes v) l)) =
  List.length (filter (decodes v) l).
Proof.
  induction l as [|i l IH]; simpl; [reflexivity|].
  destruct (decodes v i) eqn:E; simpl; rewrite ?E; simpl; now rewrite IH.
Qed.

Lemma length_mapM {A B : Type} (f : A -> result B) (l : list A)
    (bs : list B) :
  mapM f l = Return bs -> List.length bs = List.length l.
Proof.
  revert bs. induction l as [|a l IH]; simpl; intros bs.
  - intros [= <-]. reflexivity.
  - destruct (f a); simpl; [|discriminate].
    destruct (mapM f l); simpl; [|discriminate].
    intros [= <-]. simpl. f_equal. now apply IH.
Qed.

(** The loop over the positions [start, start + len), entered with
    [start] frames grabbed: it processes, in order, the frames that decode
    at the positions the stride selects, and stops at the first
    exception. *)
Lemma extract_seq (window v_width v_height : Z) (v : video)
    (len start : nat) (acc : list cv2.Mat) :
  window <> 0 ->
  extract window v_width v_height (map Z.of_nat (seq start len))
    {| source := v; grabbed := start |} acc =
  (bs <- mapM (process v_width v_height)
           (frames_at v (filter (fun i => i mod window =? 0)
                           (map Z.of_nat (seq start len)))) ;;
   Return (acc ++ bs)).
Proof.
  intros Hw. revert start acc.
  induction len as [|len IH]; intros start acc.
  - simpl. now rewrite app_nil_r.
  - cbn [seq map extract filter].
    rewrite (py_mod_nonzero _ _ Hw). cbn [bind].
    change (grab {| source := v; grabbed := start |})
      with {| source := v; grabbed := S start |}.
    destruct (Z.of_nat start mod window =? 0).
    + unfold retrieve; cbn [grabbed source].
      unfold frames_at; cbn [flat_map]. rewrite Nat2Z.id.
      destruct (decoded v start) as [m|].
      * cbn [app mapM]. fold (frames_at v).
        unfold process at 1.
        destruct (call (cv2.cvtColor m cv2.COLOR_BGR2RGB)) as [m1|e];
          cbn [bind]; [|reflexivity].
        destruct (call (cv2.resize m1 (v_width, v_height))) as [m2|e];
          cbn [bind]; [|reflexivity].
        rewrite IH.
        destruct (mapM _ _) as [bs|e]; cbn [bind]; [|reflexivity].
        now rewrite <- app_assoc.
      * cbn [app]. apply IH.
    + apply IH.
Qed.

Lemma extract_range (window v_width v_height n : Z) (v : video) :
  window <> 0 ->
  extract window v_width v_height (range n)
    {| source := v; grabbed := O |} [] =
  mapM (process v_width v_height) (frames_at v (kept v n window)).
Proof.
  intros Hw. unfold range. rewrite (extract_seq _ _ _ _ _ _ _ Hw).
  cbn [app]. rewrite bind_Return_r.
  unfold kept, sampled, range. now rewrite frames_at_filter_decodes.
Qed.

(** Every frame the loop appends has the target shape. *)
Lemma extract_shapes (window v_width v_height : Z) (positions : list Z)
    (v_cap : VideoCapture) (acc frames : list cv2.Mat) :
  Forall (fun m => cv2.shape m = (v_height, v_width)) acc ->
  extract window v_width v_height positions v_cap acc = Return frames ->
  Forall (fun m => cv2.shape m = (v_height, v_width)) frames.
Proof.
  revert v_cap acc. induction positions as [|i rest IH]; intros v_cap acc Hacc.
  - simpl. now intros [= <-].
  - cbn [extract]. destruct (py_mod i window) as [r|e]; cbn [bind];
      [|discriminate].
    destruct (r =? 0); [|now apply IH].
    destruct (retrieve (grab v_cap)) as [m|]; [|now apply IH].
    destruct (call (cv2.cvtColor m cv2.COLOR_BGR2RGB)) as [m1|e]; cbn [bind];
      [|discriminate].
    destruct (cv2.resize m1 (v_width, v_height)) as [code|m2] eqn:E;
      cbn [call bind]; [discriminate|].
    apply IH. apply Forall_app. split; [assumption|].
    constructor; [|constructor]. eapply cv2.resize_shape; eassumption.
Qed.

(** *** Counting the selected positions *)

Lemma range_S (k : nat) :
  range (Z.of_nat (S k)) = range (Z.of_nat k) ++ [Z.of_nat k].
Proof.
  unfold range. rewrite !Nat2Z.id, seq_S, map_app. reflexivity.
Qed.

Lemma In_range (n i : Z) : In i (range n) <-> 0 <= i < n.
Proof.
  unfold range. rewrite in_map_iff. split.
  - intros (k & <- & Hk). apply in_seq in Hk. lia.
  - intros H. exists (Z.to_nat i). split; [lia|]. apply in_seq. lia.
Qed.

Lemma ceil_div_succ (k w : Z) :
  0 <= k -> 1 <= w ->
  ceil_div (k + 1) w = ceil_div k w + (if k mod w =? 0 then 1 else 0).
Proof.
  intros Hk Hw. unfold ceil_div.
  pose proof (Z.div_mod k w ltac:(lia)) as Hdm.
  pose proof (Z.mod_pos_bound k w ltac:(lia)) as Hb.
  destruct (k mod w =? 0) eqn:E.
  - apply Z.eqb_eq in E.
    assert (E1 : (k + 1 + w - 1) / w = k / w + 1).
    { symmetry. apply (Z.div_unique _ _ _ 0); lia. }
    assert (E2 : (k + w - 1) / w = k / w).
    { symmetry. apply (Z.div_unique _ _ _ (w - 1)); lia. }
    lia.
  - apply Z.eqb_neq in E.
    assert (E1 : (k + 1 + w - 1) / w = k / w + 1).
    { symmetry. apply (Z.div_unique _ _ _ (k mod w)); lia. }
    assert (E2 : (k + w - 1) / w = k / w + 1).
    { symmetry. apply (Z.div_unique _ _ _ (k mod w - 1)); lia. }
    lia.
Qed.

(** The stride [w] selects [ceil(n / w)] of the positions below [n]. *)
Lemma length_sampled (n w : Z) :
  0 <= n -> 1 <= w ->
  Z.of_nat (List.length (sampled n w)) = ceil_div n w.
Proof.
  intros Hn Hw. rewrite <- (Z2Nat.id n Hn). generalize (Z.to_nat n) as k.
  clear n Hn. induction k as [|k IH].
  - unfold sampled, ceil_div. simpl.
    symmetry. apply Z.div_small. lia.
  - unfold sampled in *. rewrite range_S, filter_app, length_app.
    rewrite Nat2Z.inj_add, IH. rewrite Nat2Z.inj_succ, <- Z.add_1_r.
    rewrite ceil_div_succ by lia. cbn [filter].
    destruct (Z.of_nat k mod w =? 0); reflexivity.
Qed.

Lemma length_filter_split {A : Type} (f : A -> bool) (l : list A) :
  (List.length (filter f l) +
   List.length (filter (fun x => negb (f x)) l))%nat = List.length l.
Proof.
  induction l as [|x l IH]; simpl; [reflexivity|].
  destruct (f x); simpl; lia.
Qed.

Lemma length_kept (v : video) (n w : Z) :
  0 <= n -> 1 <= w ->
  Z.of_nat (List.length (kept v n w)) = ceil_div n w - failed v n w.
Proof.
  intros Hn Hw. rewrite <- (length_sampled n w Hn Hw).
  unfold kept, failed.
  pose proof (length_filter_split (decodes v) (sampled n w)). lia.
Qed.

Lemma In_kept (v : video) (n w i : Z) :
  In i (kept v n w) <-> 0 <= i < n /\ i mod w = 0 /\ decodes v i = true.
Proof.
  unfold kept, sampled. rewrite !filter_In, In_range, Z.eqb_eq. tauto.
Qed.

Lemma range_upto_positive (v_len stop : Z) :
  0 <= v_len -> 0 <= stop -> range_upto v_len stop = range (Z.min v_len stop).
Proof.
  intros H1 H2. unfold range_upto.
  destruct (stop <? 0) eqn:E; [lia|]. now rewrite Z.max_l.
Qed.

End Loop.

(** ** [__getitem__] *)

Section Getitem.
Context `{cv : cv2.Library}.

Implicit Types (files : string -> video) (st : state) (self : VideoDataset).

(** The [try] block reads no attribute that a handler changes. *)
Lemma getitem_try_append_error files self (e : exn) (idx : Z) :
  getitem_try files (append_error self e) idx = getitem_try files self idx.
Proof. reflexivity. Qed.

(** The block once the path, the length and the target size are known. *)
Lemma getitem_try_steps files self (idx : Z) (path : string)
    (v_len v_height v_width : Z) :
  getitem_list (path_to_all_videos self) idx = Return path ->
  PyFloat.int (CAP_PROP_FRAME_COUNT (files path)) = Return v_len ->
  v_len <> 0 ->
  PyFloat.int (CAP_PROP_FRAME_HEIGHT (files path) * resize self)%float
    = Return v_height ->
  PyFloat.int (CAP_PROP_FRAME_WIDTH (files path) * resize self)%float
    = Return v_width ->
  getitem_try files self idx =
  (frames <- extract (window self) v_width v_height
               (range_upto v_len (max_v_len self))
               {| source := files path; grabbed := O |} [] ;;
   match frames with
   | _ :: _ =>
       record <- getitem_dict (metadata self) path ;;
       label <- getitem_json record "label" ;;
       Return (path, frames, label)
   | [] => Raise (NoFrames path)
   end).
Proof.
  intros Hp Hl Hz Hh Hw. unfold getitem_try. rewrite Hp. cbn [bind source].
  rewrite Hl. cbn [bind]. apply Z.eqb_neq in Hz. rewrite Hz.
  rewrite Hh. cbn [bind]. rewrite Hw. reflexivity.
Qed.

(** What a returned sample tells about the run of the block. *)
Lemma getitem_try_Return files self (idx : Z) (p : string)
    (frames : list cv2.Mat) (label : json) :
  getitem_try files self idx = Return (p, frames, label) ->
  exists v_len v_height v_width,
    getitem_list (path_to_all_videos self) idx = Return p /\
    PyFloat.int (CAP_PROP_FRAME_COUNT (files p)) = Return v_len /\
    v_len <> 0 /\
    PyFloat.int (CAP_PROP_FRAME_HEIGHT (files p) * resize self)%float
      = Return v_height /\
    PyFloat.int (CAP_PROP_FRAME_WIDTH (files p) * resize self)%float
      = Return v_width /\
    extract (window self) v_width v_height
      (range_upto v_len (max_v_len self))
      {| source := files p; grabbed := O |} [] = Return frames /\
    frames <> [].
Proof.
  unfold getitem_try.
  destruct (getitem_list (path_to_all_videos self) idx) as [path|e] eqn:Hp;
    cbn [bind source]; [|discriminate].
  destruct (PyFloat.int (CAP_PROP_FRAME_COUNT (files path)))
    as [v_len|e] eqn:Hl; cbn [bind]; [|discriminate].
  destruct (v_len =? 0) eqn:Hz; [discriminate|].
  destruct (PyFloat.int (CAP_PROP_FRAME_HEIGHT (files path) * _)%float)
    as [h|e] eqn:Hh; cbn [bind]; [|discriminate].
  destruct (PyFloat.int (CAP_PROP_FRAME_WIDTH (files path) * _)%float)
    as [w|e] eqn:Hw; cbn [bind]; [|discriminate].
  destruct (extract _ _ _ _ _ _) as [fs|e] eqn:Hx; cbn [bind];
    [|discriminate].
  destruct fs as [|f fs]; [discriminate|].
  destruct (getitem_dict (metadata self) path) as [record|e]; cbn [bind];
    [|discriminate].
  destruct (getitem_json record "label") as [l|e]; cbn [bind];
    [|discriminate].
  intros [= <- <- <-]. exists v_len, h, w.
  apply Z.eqb_neq in Hz. repeat split; try assumption; try reflexivity.
  discriminate.
Qed.

(** The three ways a call ends. *)
Lemma getitem_Return files st (idx : Z) (s : sample) :
  getitem_try files (self_ st) idx = Return s ->
  getitem files st idx = (Return (Some s), st).
Proof. intros E. unfold getitem. now rewrite E. Qed.

Lemma getitem_recoverable files st (idx : Z) (e : exn) :
  getitem_try files (self_ st) idx = Raise e ->
  recoverable e = true ->
  exists line,
    getitem files st idx =
    (Return None,
     {| self_ := append_error (self_ st) e; stdout := stdout st ++ [line] |}).
Proof.
  intros E R. unfold getitem. rewrite E.
  destruct e; try discriminate; eexists; reflexivity.
Qed.

Lemma getitem_propagates files st (idx : Z) (e : exn) :
  getitem_try files (self_ st) idx = Raise e ->
  recoverable e = false ->
  getitem files st idx = (Raise e, st).
Proof.
  intros E R. unfold getitem. rewrite E. destruct e; try discriminate;
    reflexivity.
Qed.

(** A call's [try] block behaves the same after any other call. *)
Lemma getitem_try_after files st (i j : Z) :
  getitem_try files (self_ (snd (getitem files st i))) j =
  getitem_try files (self_ st) j.
Proof.
  unfold getitem.
  destruct (getitem_try files (self_ st) i) as [s|e]; [reflexivity|].
  destruct e; reflexivity.
Qed.


(** The loop itself raises nothing but a division by a zero stride and
    the library's error. *)
Lemma extract_Raise (window v_width v_height : Z) (positions : list Z)
    (v_cap : VideoCapture) (acc : list cv2.Mat) (e : exn) :
  extract window v_width v_height positions v_cap acc = Raise e ->
  e = ZeroDivisionError \/ exists code, e = Cv2Error code.
Proof.
  revert v_cap acc. induction positions as [|i rest IH]; intros v_cap acc.
  - discriminate.
  - cbn [extract]. unfold py_mod.
    destruct (window =? 0); cbn [bind]; [intros [= <-]; now left|].
    destruct (i mod window =? 0); [|apply IH].
    destruct (retrieve (grab v_cap)) as [m|]; [|apply IH].
    destruct (cv2.cvtColor m cv2.COLOR_BGR2RGB) as [code|m1]; cbn [call bind];
      [intros [= <-]; right; eauto|].
    destruct (cv2.resize m1 (v_width, v_height)) as [code|m2]; cbn [call bind];
      [intros [= <-]; right; eauto|].
    apply IH.
Qed.

End Getitem.

(** ** The sampler's claims *)

Section Sampler.
Context `{cv : cv2.Library}.

Implicit Types (files : string -> video) (st : state) (self : VideoDataset).

Lemma getitem_Some files st (idx : Z) (s : sample) :
  fst (getitem files st idx) = Return (Some s) ->
  getitem_try files (self_ st) idx = Return s /\
  snd (getitem files st idx) = st.
Proof.
  unfold getitem.
  destruct (getitem_try files (self_ st) idx) as [s'|e].
  - cbn. intros [= <-]. split; reflexivity.
  - destruct e; cbn; discriminate.
Qed.

Lemma filter_all {A : Type} (f : A -> bool) (l : list A) :
  List.length (filter f l) = List.length l -> filter f l = l.
Proof.
  induction l as [|x l IH]; simpl; [reflexivity|].
  destruct (f x); simpl; intros H.
  - f_equal. apply IH. lia.
  - pose proof (filter_length_le f l). lia.
Qed.

(** C3 (amended).  The claim has the target size as
    [round(source * resize)]; lines 74-75 compute [int(source * resize)],
    which truncates.  What holds: every frame of a returned sample has
    the height [int(source_height * resize)] and the width
    [int(source_width * resize)], the same for all frames of the video. *)
Theorem C3_frames_have_truncated_size files st (idx : Z) (p : string)
    (frames : list cv2.Mat) (label : json) :
  fst (getitem files st idx) = Return (Some (p, frames, label)) ->
  exists v_height v_width,
    PyFloat.int
      (CAP_PROP_FRAME_HEIGHT (files p) * resize (self_ st))%float
      = Return v_height /\
    PyFloat.int
      (CAP_PROP_FRAME_WIDTH (files p) * resize (self_ st))%float
      = Return v_width /\
    frames <> [] /\
    Forall (fun m => cv2.shape m = (v_height, v_width)) frames.
Proof.
  intros H. apply getitem_Some in H. destruct H as [H _].
  apply getitem_try_Return in H.
  destruct H as (v_len & h & w & _ & _ & _ & Hh & Hw & Hx & Hne).
  exists h, w. repeat split; try assumption.
  eapply extract_shapes; [|exact Hx]. constructor.
Qed.

(** C4.  With [total_frames > 0] and a stride [w >= 1], a call keeps the
    frames at the positions [i < min(total_frames, 1440)] with [i % w == 0]
    that decode.  The whole [try] block is: compute the target size,
    convert and resize those frames in order, and return them with the
    path and the label (or raise [NoFrames] when there is none, or the
    exception of the first conversion or resize that raised).  So the call
    returns exactly those frames whenever their processing and the label
    lookup succeed, and their number is
    [ceil(min(total_frames, 1440) / w)] minus the selected positions that
    failed to decode.  With 5 frames, all decoding, and [w = 2] the
    positions are 0, 2 and 4 and the call returns a stack of 3 frames. *)
Theorem C4_stride_keeps_every_wth_frame files self (idx : Z)
    (path : string) (v_len : Z) :
  max_v_len self = 1440 ->
  1 <= window self ->
  getitem_list (path_to_all_videos self) idx = Return path ->
  PyFloat.int (CAP_PROP_FRAME_COUNT (files path)) = Return v_len ->
  0 < v_len ->
  let v := files path in
  let w := window self in
  let n := Z.min v_len 1440 in
  let label_of :=
    (record <- getitem_dict (metadata self) path ;;
     getitem_json record "label") in
  (forall i, In i (kept v n w) <->
             0 <= i < n /\ i mod w = 0 /\ decodes v i = true) /\
  Z.of_nat (List.length (kept v n w)) = ceil_div n w - failed v n w /\
  (forall v_width v_height,
      extract w v_width v_height (range_upto v_len (max_v_len self))
        {| source := v; grabbed := O |} [] =
      mapM (process v_width v_height) (frames_at v (kept v n w))) /\
  getitem_try files self idx =
    (v_height <- PyFloat.int (CAP_PROP_FRAME_HEIGHT v * resize self)%float ;;
     v_width <- PyFloat.int (CAP_PROP_FRAME_WIDTH v * resize self)%float ;;
     frames <- mapM (process v_width v_height) (frames_at v (kept v n w)) ;;
     match frames with
     | _ :: _ => label <- label_of ;; Return (path, frames, label)
     | [] => Raise (NoFrames path)
     end) /\
  (forall st v_height v_width frames label,
      self_ st = self ->
      PyFloat.int (CAP_PROP_FRAME_HEIGHT v * resize self)%float
        = Return v_height ->
      PyFloat.int (CAP_PROP_FRAME_WIDTH v * resize self)%float
        = Return v_width ->
      mapM (process v_width v_height) (frames_at v (kept v n w))
        = Return frames ->
      frames <> [] ->
      label_of = Return label ->
      getitem files st idx = (Return (Some (path, frames, label)), st) /\
      Z.of_nat (List.length frames) = ceil_div n w - failed v n w) /\
  (forall p frames label,
      getitem_try files self idx = Return (p, frames, label) ->
      p = path /\
      (exists v_height v_width,
          PyFloat.int (CAP_PROP_FRAME_HEIGHT v * resize self)%float
            = Return v_height /\
          PyFloat.int (CAP_PROP_FRAME_WIDTH v * resize self)%float
            = Return v_width /\
          mapM (process v_width v_height) (frames_at v (kept v n w))
            = Return frames) /\
      Z.of_nat (List.length frames) = ceil_div n w - failed v n w) /\
  (v_len = 5 -> w = 2 -> failed v n w = 0 ->
   kept v n w = [0; 2; 4] /\
   (forall p frames label,
       getitem_try files self idx = Return (p, frames, label) ->
       List.length frames = 3%nat) /\
   (forall st v_height v_width frames label,
       self_ st = self ->
       PyFloat.int (CAP_PROP_FRAME_HEIGHT v * resize self)%float
         = Return v_height ->
       PyFloat.int (CAP_PROP_FRAME_WIDTH v * resize self)%float
         = Return v_width ->
       mapM (process v_width v_height) (frames_at v [0; 2; 4])
         = Return frames ->
       label_of = Return label ->
       getitem files st idx = (Return (Some (path, frames, label)), st) /\
       List.length frames = 3%nat)).
Proof.
  intros Hmax Hw Hp Hl Hpos v w n label_of.
  assert (Hn : 0 <= n) by (subst n; lia).
  assert (Hloop : forall v_width v_height,
      extract w v_width v_height (range_upto v_len (max_v_len self))
        {| source := v; grabbed := O |} [] =
      mapM (process v_width v_height) (frames_at v (kept v n w))).
  { intros vw vh. rewrite Hmax, range_upto_positive by lia.
    apply extract_range. subst w. lia. }
  assert (Hcount : Z.of_nat (List.length (kept v n w)) =
                   ceil_div n w - failed v n w).
  { apply length_kept; assumption. }
  assert (Hlen : forall vw vh frames,
      mapM (process vw vh) (frames_at v (kept v n w)) = Return frames ->
      List.length frames = List.length (kept v n w)).
  { intros vw vh frames H. apply length_mapM in H.
    rewrite H, length_frames_at. unfold kept.
    now rewrite frames_at_filter_decodes_length. }
  assert (Hbody : getitem_try files self idx =
    (v_height <- PyFloat.int (CAP_PROP_FRAME_HEIGHT v * resize self)%float ;;
     v_width <- PyFloat.int (CAP_PROP_FRAME_WIDTH v * resize self)%float ;;
     frames <- mapM (process v_width v_height) (frames_at v (kept v n w)) ;;
     match frames with
     | _ :: _ => label <- label_of ;; Return (path, frames, label)
     | [] => Raise (NoFrames path)
     end)).
  { unfold getitem_try. rewrite Hp. cbn [bind source]. rewrite Hl.
    cbn [bind]. replace (v_len =? 0) with false by (symmetry; lia).
    fold v.
    destruct (PyFloat.int (CAP_PROP_FRAME_HEIGHT v * resize self)%float)
      as [h|e]; cbn [bind]; [|reflexivity].
    destruct (PyFloat.int (CAP_PROP_FRAME_WIDTH v * resize self)%float)
      as [wd|e]; cbn [bind]; [|reflexivity].
    fold w. rewrite Hloop.
    destruct (mapM (process wd h) (frames_at v (kept v n w))) as [fs|e];
      cbn [bind]; [|reflexivity].
    destruct fs as [|f fs]; [reflexivity|].
    subst label_of.
    destruct (getitem_dict (metadata self) path) as [record|e];
      cbn [bind]; reflexivity. }
  assert (Hreturns : forall st v_height v_width frames label,
      self_ st = self ->
      PyFloat.int (CAP_PROP_FRAME_HEIGHT v * resize self)%float
        = Return v_height ->
      PyFloat.int (CAP_PROP_FRAME_WIDTH v * resize self)%float
        = Return v_width ->
      mapM (process v_width v_height) (frames_at v (kept v n w))
        = Return frames ->
      frames <> [] ->
      label_of = Return label ->
      getitem files st idx = (Return (Some (path, frames, label)), st) /\
      Z.of_nat (List.length frames) = ceil_div n w - failed v n w).
  { intros st h wd frames label Hst Hh Hwd Hm Hne Hlab. split.
    - apply getitem_Return. rewrite Hst, Hbody, Hh. cbn [bind].
      rewrite Hwd. cbn [bind]. rewrite Hm. cbn [bind].
      destruct frames as [|f fs]; [congruence|]. rewrite Hlab. reflexivity.
    - rewrite (Hlen _ _ _ Hm). exact Hcount. }
  assert (Hinv : forall p frames label,
      getitem_try files self idx = Return (p, frames, label) ->
      p = path /\
      (exists v_height v_width,
          PyFloat.int (CAP_PROP_FRAME_HEIGHT v * resize self)%float
            = Return v_height /\
          PyFloat.int (CAP_PROP_FRAME_WIDTH v * resize self)%float
            = Return v_width /\
          mapM (process v_width v_height) (frames_at v (kept v n w))
            = Return frames) /\
      Z.of_nat (List.length frames) = ceil_div n w - failed v n w).
  { intros p frames label H. rewrite Hbody in H.
    destruct (PyFloat.int (CAP_PROP_FRAME_HEIGHT v * resize self)%float)
      as [h|e]; cbn [bind] in H; [|discriminate].
    destruct (PyFloat.int (CAP_PROP_FRAME_WIDTH v * resize self)%float)
      as [wd|e]; cbn [bind] in H; [|discriminate].
    destruct (mapM (process wd h) (frames_at v (kept v n w))) as [fs|e]
      eqn:Hm; cbn [bind] in H; [|discriminate].
    destruct fs as [|f fs]; [discriminate|].
    destruct label_of as [l|e]; cbn [bind] in H; [|discriminate].
    injection H as <- <- <-. split; [reflexivity|]. split.
    - exists h, wd. repeat split. exact Hm.
    - rewrite (Hlen _ _ _ Hm). exact Hcount. }
  split; [intros i; apply In_kept|].
  split; [exact Hcount|]. split; [exact Hloop|].
  split; [exact Hbody|]. split; [exact Hreturns|]. split; [exact Hinv|].
  intros E5 E2 Ef.
  assert (Hk : kept v n w = [0; 2; 4]).
  { assert (Hs : sampled n w = [0; 2; 4])
      by (subst n; rewrite E5, E2; reflexivity).
    unfold kept. rewrite <- Hs. apply filter_all.
    fold (kept v n w). apply Nat2Z.inj. rewrite Hcount, Ef.
    rewrite <- (length_sampled n w Hn Hw). lia. }
  split; [exact Hk|]. split.
  - intros p frames label H. apply Hinv in H.
    destruct H as (_ & _ & H). apply Nat2Z.inj.
    rewrite H, <- Hcount, Hk. reflexivity.
  - intros st h wd frames label Hst Hh Hwd Hm Hlab. rewrite <- Hk in Hm.
    assert (H3 : List.length frames = 3%nat)
      by (rewrite (Hlen _ _ _ Hm), Hk; reflexivity).
    split; [|exact H3].
    apply (Hreturns st h wd frames label Hst Hh Hwd Hm); [|exact Hlab].
    destruct frames; [discriminate | discriminate].
Qed.

End Sampler.

(** ** Failures, the error list and the state *)

Section Failures.
Context `{cv : cv2.Library}.

Implicit Types (files : string -> video) (st : state) (self : VideoDataset).

Lemma length_filter_not_None {A : Type} (l : list (option A)) :
  (List.length (filter_not_None l) <= List.length l)%nat.
Proof. induction l as [|[a|] l IH]; simpl; lia. Qed.

Lemma In_filter_not_None {A : Type} (a : A) (l : list (option A)) :
  In a (filter_not_None l) <-> In (Some a) l.
Proof.
  induction l as [|[b|] l IH]; simpl; [tauto| |].
  - rewrite IH. intuition congruence.
  - rewrite IH. intuition congruence.
Qed.

(** A batch of calls whose [try] blocks all return or raise one of the
    two handled conditions is collected to the end. *)
Lemma fetch_batch_tolerated files st (idxs : list Z) :
  Forall (fun i => tolerated (getitem_try files (self_ st) i) = true) idxs ->
  exists st',
    fetch_batch files st idxs =
    (Return (map (fun i => item_of (getitem_try files (self_ st) i)) idxs),
     st').
Proof.
  revert st. induction idxs as [|i rest IH]; intros st Hall.
  - exists st. reflexivity.
  - inversion Hall as [|? ? Hi Hrest]; subst. cbn [fetch_batch map].
    assert (Hafter : forall j,
        getitem_try files (self_ (snd (getitem files st i))) j =
        getitem_try files (self_ st) j) by (intros; apply getitem_try_after).
    destruct (IH (snd (getitem files st i))) as (st' & E).
    { eapply Forall_impl; [|exact Hrest]. cbn. intros j Hj.
      now rewrite Hafter. }
    rewrite (map_ext _ _ (fun j => f_equal item_of (Hafter j))) in E.
    destruct (getitem_try files (self_ st) i) as [s|e] eqn:Ht.
    + rewrite (getitem_Return _ _ _ _ Ht) in *. cbn [snd] in E.
      rewrite E. exists st'. reflexivity.
    + cbn in Hi. destruct (getitem_recoverable _ _ _ _ Ht Hi) as (line & G).
      rewrite G in *. cbn [snd] in E. rewrite E. exists st'. reflexivity.
Qed.

(** What holds at the boundary of a call.  Neither handled condition
    leaves it: the call returns [None] instead.  Every other exception of
    the [try] block leaves the call unchanged, with the state as it was;
    the loop raises such exceptions when the colour conversion or the
    resize does.  The items of a batch of calls that meet only the two
    handled conditions are collected to the end, with [None] where a call
    failed, so that filtering keeps the successes alone. *)
Lemma getitem_failure_policy files st (idx : Z) :
  (forall e, fst (getitem files st idx) = Raise e -> recoverable e = false) /\
  (forall e, getitem_try files (self_ st) idx = Raise e ->
             recoverable e = true ->
             fst (getitem files st idx) = Return None) /\
  (forall e, getitem_try files (self_ st) idx = Raise e ->
             recoverable e = false ->
             getitem files st idx = (Raise e, st)) /\
  (forall path v_len v_height v_width e,
      getitem_list (path_to_all_videos (self_ st)) idx = Return path ->
      PyFloat.int (CAP_PROP_FRAME_COUNT (files path)) = Return v_len ->
      v_len <> 0 ->
      PyFloat.int (CAP_PROP_FRAME_HEIGHT (files path)
                   * resize (self_ st))%float = Return v_height ->
      PyFloat.int (CAP_PROP_FRAME_WIDTH (files path)
                   * resize (self_ st))%float = Return v_width ->
      extract (window (self_ st)) v_width v_height
        (range_upto v_len (max_v_len (self_ st)))
        {| source := files path; grabbed := O |} [] = Raise e ->
      getitem files st idx = (Raise e, st)) /\
  (forall idxs,
      Forall (fun i => tolerated (getitem_try files (self_ st) i) = true)
        idxs ->
      let items :=
        map (fun i => item_of (getitem_try files (self_ st) i)) idxs in
      (exists st', fetch_batch files st idxs = (Return items, st')) /\
      List.length items = List.length idxs /\
      (List.length (filter_not_None items) <= List.length idxs)%nat /\
      (forall s, In s (filter_not_None items) <->
                 exists i, In i idxs /\
                           getitem_try files (self_ st) i = Return s)).
Proof.
  split; [|split; [|split; [|split]]].
  - intros e. unfold getitem.
    destruct (getitem_try files (self_ st) idx) as [s|e']; [discriminate|].
    destruct e'; cbn; try discriminate; intros [= <-]; reflexivity.
  - intros e E R. destruct (getitem_recoverable _ _ _ _ E R) as (line & G).
    now rewrite G.
  - intros e E R. now apply getitem_propagates.
  - intros path v_len h w e Hp Hl Hz Hh Hw Hx.
    apply getitem_propagates.
    + rewrite (getitem_try_steps _ _ _ _ _ _ _ Hp Hl Hz Hh Hw), Hx.
      reflexivity.
    + apply extract_Raise in Hx. destruct Hx as [-> | [code ->]]; reflexivity.
  - intros idxs Hall items. split; [now apply fetch_batch_tolerated|].
    split; [apply length_map|]. split.
    + etransitivity; [apply length_filter_not_None|].
      subst items. now rewrite length_map.
    + intros s. rewrite In_filter_not_None. subst items.
      rewrite in_map_iff. split.
      * intros (i & E & Hi). exists i. split; [assumption|].
        destruct (getitem_try files (self_ st) i); cbn in E; congruence.
      * intros (i & Hi & E). exists i. split; [|assumption].
        now rewrite E.
Qed.

Lemma as_batch_repeat_None (n : nat) :
  as_batch (repeat None n) = repeat None n.
Proof. unfold as_batch. induction n; cbn; [reflexivity | now f_equal]. Qed.

Lemma map_all_None (files : string -> video) self (idxs : list Z) :
  Forall (fun i => exists e, getitem_try files self i = Raise e /\
                             recoverable e = true) idxs ->
  map (fun i => item_of (getitem_try files self i)) idxs =
  repeat None (List.length idxs).
Proof.
  induction 1 as [|i idxs (e & E & _) _ IH]; cbn; [reflexivity|].
  now rewrite E, IH.
Qed.

(** C5 (code defect).  The claim: neither handled condition leaves a call,
    any other exception does, and so recoverable failures never abort the
    iteration and only shrink the batch.  The call does behave so, and the
    items of a batch are collected to the end.  But when every call of a
    batch fails in a handled way, the items are all [None] and
    [collate_fn] raises [IndexError] on them: the iteration is aborted
    where a batch shrunk to nothing was due.  This holds for every batch
    of such indices, of any length; it is the defect of C2 met from the
    sampler's side. *)
Theorem C5_all_failed_batch_aborts files st (idxs : list Z) :
  Forall (fun i => exists e, getitem_try files (self_ st) i = Raise e /\
                             recoverable e = true) idxs ->
  (exists st',
      fetch_batch files st idxs =
      (Return (repeat None (List.length idxs)), st')) /\
  (items <- fst (fetch_batch files st idxs) ;; collate_fn (as_batch items))
  = Raise IndexError.
Proof.
  intros Hall.
  assert (Htol : Forall
            (fun i => tolerated (getitem_try files (self_ st) i) = true) idxs).
  { eapply Forall_impl; [|exact Hall]. cbn. intros i (e & E & R).
    now rewrite E. }
  destruct (fetch_batch_tolerated files st idxs Htol) as (st' & E).
  rewrite (map_all_None _ _ _ Hall) in E.
  split; [eauto|].
  rewrite E. cbn [fst bind]. unfold collate_fn, CustomBatch_init.
  rewrite as_batch_repeat_None, filter_not_None_repeat. reflexivity.
Qed.

(** C6.  When the video reports zero frames the call returns [None],
    prints the line and appends one entry to the error list: the
    [NoVideo] exception that carries the path. *)
Theorem C6_zero_frames_is_NoVideo files st (idx : Z) (path : string) :
  getitem_list (path_to_all_videos (self_ st)) idx = Return path ->
  PyFloat.int (CAP_PROP_FRAME_COUNT (files path)) = Return 0 ->
  getitem files st idx =
    (Return None,
     {| self_ := append_error (self_ st) (NoVideo path);
        stdout := stdout st ++ [("Video " ++ path ++ " not found")%string] |})
  /\ error_paths (self_ (snd (getitem files st idx))) =
     error_paths (self_ st) ++ [NoVideo path]
  /\ List.length (error_paths (self_ (snd (getitem files st idx)))) =
     S (List.length (error_paths (self_ st)))
  /\ exn_path (NoVideo path) = Some path.
Proof.
  intros Hp Hl.
  assert (E : getitem_try files (self_ st) idx = Raise (NoVideo path)).
  { unfold getitem_try. rewrite Hp. cbn [bind source]. rewrite Hl.
    reflexivity. }
  assert (G : getitem files st idx =
    (Return None,
     {| self_ := append_error (self_ st) (NoVideo path);
        stdout := stdout st ++ [("Video " ++ path ++ " not found")%string] |})).
  { unfold getitem. rewrite E. reflexivity. }
  rewrite G. cbn. rewrite length_app. cbn.
  repeat split; try reflexivity. lia.
Qed.

(** C7.  When the video reports frames but no selected position decodes,
    the block raises [NoFrames] (not [NoVideo]); the call returns [None],
    prints the no-frames line and appends the [NoFrames] exception that
    carries the path to the error list. *)
Theorem C7_no_decoded_frame_is_NoFrames files st (idx : Z) (path : string)
    (v_len v_height v_width : Z) :
  getitem_list (path_to_all_videos (self_ st)) idx = Return path ->
  PyFloat.int (CAP_PROP_FRAME_COUNT (files path)) = Return v_len ->
  0 < v_len ->
  window (self_ st) <> 0 ->
  PyFloat.int (CAP_PROP_FRAME_HEIGHT (files path)
               * resize (self_ st))%float = Return v_height ->
  PyFloat.int (CAP_PROP_FRAME_WIDTH (files path)
               * resize (self_ st))%float = Return v_width ->
  (forall i, In i (range_upto v_len (max_v_len (self_ st))) ->
             i mod window (self_ st) = 0 ->
             decodes (files path) i = false) ->
  getitem_try files (self_ st) idx = Raise (NoFrames path) /\
  getitem files st idx =
    (Return None,
     {| self_ := append_error (self_ st) (NoFrames path);
        stdout :=
          stdout st ++ [("Video " ++ path ++ " has no frames")%string] |}) /\
  error_paths (self_ (snd (getitem files st idx))) =
    error_paths (self_ st) ++ [NoFrames path] /\
  exn_path (NoFrames path) = Some path.
Proof.
  intros Hp Hl Hpos Hwin Hh Hw Hnone.
  assert (E : getitem_try files (self_ st) idx = Raise (NoFrames path)).
  { rewrite (getitem_try_steps _ _ _ _ _ _ _ Hp Hl ltac:(lia) Hh Hw).
    unfold range_upto, range in *.
    rewrite (extract_seq _ _ _ _ _ _ _ Hwin).
    set (l := map Z.of_nat _) in *.
    assert (Hnil : frames_at (files path)
              (filter (fun i => i mod window (self_ st) =? 0) l) = []).
    { clearbody l. induction l as [|i l IH]; [reflexivity|].
      cbn [filter]. destruct (i mod window (self_ st) =? 0) eqn:Em.
      - unfold frames_at. cbn [flat_map]. fold (frames_at (files path)).
        assert (Hd : decodes (files path) i = false).
        { apply Hnone; [now left | now apply Z.eqb_eq]. }
        unfold decodes in Hd.
        destruct (decoded (files path) (Z.to_nat i)); [discriminate|].
        apply IH. intros j Hj. apply Hnone. now right.
      - apply IH. intros j Hj. apply Hnone. now right. }
    rewrite Hnil. reflexivity. }
  split; [exact E|].
  assert (G : getitem files st idx =
    (Return None,
     {| self_ := append_error (self_ st) (NoFrames path);
        stdout :=
          stdout st ++ [("Video " ++ path ++ " has no frames")%string] |})).
  { unfold getitem. rewrite E. reflexivity. }
  rewrite G. repeat split; reflexivity.
Qed.

End Failures.

(** ** What a call leaves unchanged *)

Section Frame.
Context `{cv : cv2.Library}.

Implicit Types (files : string -> video) (st : state) (self : VideoDataset).

Lemma same_config_refl self : same_config self self.
Proof. repeat split. Qed.

Lemma same_config_trans (a b c : VideoDataset) :
  same_config a b -> same_config b c -> same_config a c.
Proof.
  unfold same_config. intros (? & ? & ? & ? & ? & ?) (? & ? & ? & ? & ? & ?).
  repeat split; congruence.
Qed.

Lemma getitem_same_config files st (idx : Z) :
  same_config (self_ (snd (getitem files st idx))) (self_ st).
Proof.
  unfold getitem.
  destruct (getitem_try files (self_ st) idx) as [s|e];
    [apply same_config_refl|].
  destruct e; cbn; repeat split.
Qed.

Lemma fetches_cons files st (idx : Z) (rest : list Z) :
  fetches files st (idx :: rest) =
  (fst (getitem files st idx)
     :: fst (fetches files (snd (getitem files st idx)) rest),
   snd (fetches files (snd (getitem files st idx)) rest)).
Proof.
  cbn [fetches]. destruct (getitem files st idx) as [r st1].
  cbn [fst snd]. destruct (fetches files st1 rest) as [rs st2]. reflexivity.
Qed.

Lemma fetches_same_config files (idxs : list Z) st :
  same_config (self_ (snd (fetches files st idxs))) (self_ st).
Proof.
  revert st. induction idxs as [|idx rest IH]; intros st.
  - apply same_config_refl.
  - rewrite fetches_cons. cbn [snd].
    eapply same_config_trans; [apply IH | apply getitem_same_config].
Qed.

Lemma same_config_len (a b : VideoDataset) :
  same_config a b -> len a = len b.
Proof. intros (_ & E & _). unfold len. now rewrite E. Qed.





(** C9.  A call changes no attribute that [__init__] set, the error list
    apart; so [__len__] is the same after any run of calls, and on a
    dataset just built it is the number of keys the pruning left.  On a
    dictionary (distinct keys) the construction does not raise. *)
Theorem C9_fetch_keeps_construction_state files st (idx : Z) :
  (let self' := self_ (snd (getitem files st idx)) in
   metadata self' = metadata (self_ st) /\
   path_to_all_videos self' = path_to_all_videos (self_ st) /\
   window self' = window (self_ st) /\
   resize self' = resize (self_ st) /\
   transform self' = transform (self_ st) /\
   max_v_len self' = max_v_len (self_ st) /\
   len self' = len (self_ st)) /\
  (forall idxs,
      same_config (self_ (snd (fetches files st idxs))) (self_ st) /\
      len (self_ (snd (fetches files st idxs))) = len (self_ st)) /\
  (forall loaded listing w r t ds,
      init loaded listing w r t = Return ds ->
      prune loaded listing = Return (metadata ds) /\
      len ds = Z.of_nat (List.length (keys (metadata ds))) /\
      forall out idxs,
        len (self_ (snd (fetches files {| self_ := ds; stdout := out |} idxs)))
        = Z.of_nat (List.length (keys (metadata ds)))) /\
  (forall loaded listing w r t,
      NoDup (keys loaded) ->
      exists ds, init loaded listing w r t = Return ds).
Proof.
  split; [|split; [|split]].
  - pose proof (getitem_same_config files st idx) as H.
    pose proof (same_config_len _ _ H) as Hlen.
    destruct H as (? & ? & ? & ? & ? & ?). cbn zeta. tauto.
  - intros idxs. pose proof (fetches_same_config files idxs st) as H.
    split; [exact H | now apply same_config_len].
  - intros loaded listing w r t ds. unfold init.
    destruct (prune loaded listing) as [m|e]; cbn [bind]; [|discriminate].
    intros [= <-]. cbn [metadata]. split; [reflexivity|].
    split; [reflexivity|]. intros out idxs.
    rewrite (same_config_len _ _ (fetches_same_config files idxs _)).
    reflexivity.
  - intros loaded listing w r t ND.
    destruct (prune_only_done loaded listing ND) as (m & E & _).
    unfold init. rewrite E. cbn [bind]. eauto.
Qed.


End Frame.

(** ** The properties on a concrete dataset *)

Section Examples.
Import Demo.

Local Open Scope float_scope.
Local Open Scope Z_scope.

(** The demo dataset is what [__init__] builds: [seen.mp4] is pruned. *)
Example init_demo (w : Z) (r : float) :
  init loaded listing w r None = Return (dataset w r).
Proof. reflexivity. Qed.

(** The spec's scenario: [a.mp4] is done, [b.mp4] remains. *)
Example prune_scenario :
  prune [("a.mp4", JObj [("label", JStr "REAL")]);
         ("b.mp4", JObj [("label", JStr "FAKE")])] ["a.npy"] =
  Return [("b.mp4", JObj [("label", JStr "FAKE")])].
Proof. reflexivity. Qed.

Example scenario_is_aligned :
  aligned [("a.mp4", JObj [("label", JStr "REAL")]);
           ("b.mp4", JObj [("label", JStr "FAKE")])] /\
  ~ aligned [("a-b.mp4", JNull); ("a.mp4", JNull)].
Proof.
  split.
  - unfold aligned. cbn. repeat constructor.
  - unfold aligned. cbn. intros H. inversion H as [|? ? _ F]; subst.
    inversion F as [|? ? L _]; subst. discriminate L.
Qed.

Example int_truncates :
  PyFloat.int 270.75 = Return 270 /\ PyFloat.int (-1.5) = Return (-1) /\
  PyFloat.round 270.75 = Return 271 /\ PyFloat.round 2.5 = Return 2 /\
  PyFloat.round 3.5 = Return 4 /\ PyFloat.int infinity = Raise OverflowError.
Proof. repeat split; vm_compute; reflexivity. Qed.

(** C3, the claim as stated fails: a video of 1083 by 1923 resized by 0.25
    gives frames of 270 by 480 ([int] of 270.75 and of 480.75), where
    [round] gives 271 by 481. *)
Lemma C3_round_is_not_what_the_code_computes :
  CAP_PROP_FRAME_HEIGHT (files "five.mp4") = 1083%float /\
  CAP_PROP_FRAME_WIDTH (files "five.mp4") = 1923%float /\
  fst (getitem files (start 2 0.25) 0) =
    Return (Some ("five.mp4",
                  [resized 270 480 0; resized 270 480 2; resized 270 480 4],
                  JStr "REAL")) /\
  cv2.shape (resized 270 480 0) = (270, 480) /\
  PyFloat.round (1083 * 0.25)%float = Return 271 /\
  PyFloat.round (1923 * 0.25)%float = Return 481.
Proof. repeat split; vm_compute; reflexivity. Qed.

Lemma C3_witness :
  exists v_height v_width,
    PyFloat.int (CAP_PROP_FRAME_HEIGHT (files "five.mp4") * 0.25)%float
      = Return v_height /\
    PyFloat.int (CAP_PROP_FRAME_WIDTH (files "five.mp4") * 0.25)%float
      = Return v_width /\
    [resized 270 480 0; resized 270 480 2; resized 270 480 4] <> [] /\
    Forall (fun m : image => cv2.shape m = (v_height, v_width))
      [resized 270 480 0; resized 270 480 2; resized 270 480 4].
Proof.
  apply (C3_frames_have_truncated_size (cv := cv) files (start 2 0.25) 0
           "five.mp4" _ (JStr "REAL")).
  vm_compute. reflexivity.
Defined.

(** The spec's scenario for C4: stride 2 on 5 decodable frames. *)
Lemma C4_witness :
  kept (files "five.mp4") (Z.min 5 1440) 2 = [0; 2; 4] /\
  getitem files (start 2 0.25) 0 =
    (Return (Some ("five.mp4",
                   [resized 270 480 0; resized 270 480 2; resized 270 480 4],
                   JStr "REAL")),
     start 2 0.25) /\
  List.length [resized 270 480 0; resized 270 480 2; resized 270 480 4]
  = 3%nat.
Proof.
  destruct (C4_stride_keeps_every_wth_frame (cv := cv) files
              (dataset 2 0.25) 0 "five.mp4" 5)
    as (_ & _ & _ & _ & _ & _ & H).
  - reflexivity.
  - cbn. lia.
  - reflexivity.
  - vm_compute. reflexivity.
  - lia.
  - destruct H as (Hk & _ & Hget); [reflexivity | reflexivity | reflexivity |].
    split; [exact Hk|].
    apply (Hget (start 2 0.25) 270 480).
    + reflexivity.
    + vm_compute. reflexivity.
    + vm_compute. reflexivity.
    + vm_compute. reflexivity.
    + reflexivity.
Defined.

Example five_frames_stack :
  option_map (fun s : sample => List.length (snd (fst s)))
    (item_of (getitem_try files (dataset 2 0.25) 0)) = Some 3%nat.
Proof. vm_compute. reflexivity. Qed.

Lemma C6_witness :
  getitem files (start 1 0.5) 2 =
    (Return None,
     {| self_ := append_error (dataset 1 0.5) (NoVideo "gone.mp4");
        stdout := ["Video gone.mp4 not found"%string] |}) /\
  error_paths (self_ (snd (getitem files (start 1 0.5) 2))) =
    [NoVideo "gone.mp4"] /\
  List.length (error_paths (self_ (snd (getitem files (start 1 0.5) 2)))) =
    1%nat /\
  exn_path (NoVideo "gone.mp4") = Some "gone.mp4"%string.
Proof.
  apply (C6_zero_frames_is_NoVideo (cv := cv) files (start 1 0.5) 2
           "gone.mp4").
  - reflexivity.
  - vm_compute. reflexivity.
Defined.

Lemma C7_witness :
  getitem_try files (dataset 2 0.5) 1 = Raise (NoFrames "dark.mp4") /\
  getitem files (start 2 0.5) 1 =
    (Return None,
     {| self_ := append_error (dataset 2 0.5) (NoFrames "dark.mp4");
        stdout := ["Video dark.mp4 has no frames"%string] |}) /\
  error_paths (self_ (snd (getitem files (start 2 0.5) 1))) =
    [NoFrames "dark.mp4"] /\
  exn_path (NoFrames "dark.mp4") = Some "dark.mp4"%string.
Proof.
  apply (C7_no_decoded_frame_is_NoFrames (cv := cv) files (start 2 0.5) 1
           "dark.mp4" 5 540 960).
  - reflexivity.
  - vm_compute. reflexivity.
  - lia.
  - cbn. lia.
  - vm_compute. reflexivity.
  - vm_compute. reflexivity.
  - intros i _ _. reflexivity.
Defined.


Example batch_columns :
  CustomBatch_init (as_batch two_of_four) =
  Return {| video_path := [PyStr_ "five.mp4"; PyStr_ "flat.mp4"];
            frame := [PyArray [bgr 270 480 0];
                      PyArray [bgr 1 480 0; bgr 1 480 1]];
            label := [PyJson (JStr "REAL"); PyJson (JStr "FAKE")] |}.
Proof. reflexivity. Qed.

(** A resize that raises leaves the call; the two handled conditions do
    not, and the batch goes on. *)
Example resize_error_propagates :
  getitem files (start 1 0.25) 3 = (Raise (Cv2Error (-215)), start 1 0.25) /\
  fst (fetch_batch files (start 1 0.25) [0; 3; 1]) = Raise (Cv2Error (-215)).
Proof. split; vm_compute; reflexivity. Qed.

Example failures_shrink_the_batch :
  let '(items, st) := fetch_batch files (start 2 0.25) [1; 0; 2; 1] in
  option_map (map (option_map (fun s : sample => fst (fst s))))
    (match items with Return l => Some l | Raise _ => None end) =
    Some [None; Some "five.mp4"%string; None; None] /\
  error_paths (self_ st) =
    [NoFrames "dark.mp4"; NoVideo "gone.mp4"; NoFrames "dark.mp4"] /\
  len (self_ st) = 4.
Proof. vm_compute. repeat split; reflexivity. Qed.

Lemma C5_witness :
  (exists st',
      fetch_batch files (start 2 0.25) [1; 2] =
      (Return (repeat None (List.length [1; 2])), st')) /\
  (items <- fst (fetch_batch files (start 2 0.25) [1; 2]) ;;
   collate_fn (as_batch items)) = Raise IndexError.
Proof.
  apply (C5_all_failed_batch_aborts (cv := cv) files (start 2 0.25) [1; 2]).
  repeat constructor.
  - exists (NoFrames "dark.mp4"). split; vm_compute; reflexivity.
  - exists (NoVideo "gone.mp4"). split; vm_compute; reflexivity.
Defined.

(** The assembler on a batch whose calls all failed. *)
Example failed_batch_raises :
  (items <- fst (fetch_batch files (start 2 0.25) [1; 2]) ;;
   collate_fn (as_batch items)) = Raise IndexError.
Proof. vm_compute. reflexivity. Qed.

End Examples.

(** * Further properties of the code *)

(** ** The pruning of [__init__] *)

Section PruningMore.
Context {V : Type}.

Lemma filter_filter {A : Type} (f g : A -> bool) (l : list A) :
  filter f (filter g l) = filter (fun a => g a && f a) l.
Proof.
  induction l as [|a l IH]; simpl; [reflexivity|].
  destruct (g a); simpl; [destruct (f a)|]; now rewrite IH.
Qed.

Lemma pop_all_filter (delete : list string) (d : dict V) :
  incl delete (keys d) ->
  NoDup delete ->
  pop_all delete d =
  Return (filter (fun kv => negb (PyStr.mem (fst kv) delete)) d).
Proof.
  revert d. induction delete as [|x delete IH]; intros d Hincl ND.
  - simpl. f_equal. symmetry. apply forallb_filter_id.
    apply forallb_forall. reflexivity.
  - inversion ND as [|? ? Hx ND']; subst. cbn [pop_all].
    destruct (lookup_In x d) as [v Hv]; [apply Hincl; now left|].
    unfold pop. rewrite Hv. cbn [bind]. rewrite IH; [|
      intros y Hy; apply In_keys_remove_key; split;
        [apply Hincl; now right | intros ->; contradiction] | assumption].
    f_equal. unfold remove_key. rewrite filter_filter.
    apply filter_ext. intros [k v']. cbn [fst PyStr.mem existsb].
    rewrite negb_orb, (String.eqb_sym k x). reflexivity.
Qed.

Lemma lookup_filter (keep : string -> bool) (k : string) (d : dict V) :
  lookup k (filter (fun kv => keep (fst kv)) d) =
  if keep k then lookup k d else None.
Proof.
  induction d as [|[k' v] d IH]; simpl; [now destruct (keep k)|].
  destruct (keep k') eqn:Ek'; simpl.
  - destruct (String.eqb k k') eqn:E.
    + apply String.eqb_eq in E. subst k'. now rewrite Ek'.
    + exact IH.
  - destruct (String.eqb k k') eqn:E; [|exact IH].
    apply String.eqb_eq in E. subst k'. rewrite Ek' in *. exact IH.
Qed.

Lemma NoDup_keys_filter (f : string * V -> bool) (d : dict V) :
  NoDup (keys d) -> NoDup (keys (filter f d)).
Proof.
  unfold keys. induction d as [|kv d IH]; simpl; intros ND; [constructor|].
  inversion ND as [|? ? Hk ND']; subst.
  destruct (f kv); simpl; [|now apply IH].
  constructor; [|now apply IH].
  intros H. apply Hk. apply in_map_iff in H. destruct H as (kv' & E & H).
  apply filter_In in H. apply in_map_iff. exists kv'. tauto.
Qed.

Lemma delete_list_NoDup (metadata : dict V) (listing : list string) :
  NoDup (keys metadata) -> NoDup (delete_list metadata listing).
Proof.
  intros ND. unfold delete_list. apply scan_NoDup. simpl.
  unfold sorted_keys. now apply NoDup_sort_by.
Qed.

Lemma delete_list_incl (metadata : dict V) (listing : list string) :
  incl (delete_list metadata listing) (keys metadata).
Proof. intros k Hk. now apply delete_list_sound in Hk. Qed.

(** X1.  On a dictionary the pruning returns the loaded entries with some
    of them dropped: the entries that stay keep their order and their
    records, and the keys stay distinct. *)
Theorem X1_prune_keeps_order_and_records (metadata : dict V)
    (listing : list string) :
  NoDup (keys metadata) ->
  exists (keep : string -> bool) (m : dict V),
    prune metadata listing = Return m /\
    m = filter (fun kv => keep (fst kv)) metadata /\
    NoDup (keys m) /\
    (forall k v, lookup k m = Some v -> lookup k metadata = Some v) /\
    (forall k, In k (keys m) -> In k (keys metadata)).
Proof.
  intros ND.
  exists (fun k => negb (PyStr.mem k (delete_list metadata listing))).
  exists (filter (fun kv =>
            negb (PyStr.mem (fst kv) (delete_list metadata listing)))
            metadata).
  split; [|split; [reflexivity|split; [|split]]].
  - unfold prune. apply pop_all_filter;
      [apply delete_list_incl | now apply delete_list_NoDup].
  - now apply NoDup_keys_filter.
  - intros k v.
    rewrite (lookup_filter
               (fun k => negb (PyStr.mem k (delete_list metadata listing)))).
    destruct (negb _); [auto | discriminate].
  - intros k Hk. unfold keys in *. apply in_map_iff in Hk.
    destruct Hk as (kv & E & H). apply filter_In in H.
    apply in_map_iff. exists kv. tauto.
Qed.

(** X2.  On a dictionary the pruning does not raise, and it removes no key
    unless the key's stem is among the stems of the directory's entries. *)
Theorem X2_prune_removes_only_done_keys (metadata : dict V)
    (listing : list string) :
  NoDup (keys metadata) ->
  exists m, prune metadata listing = Return m /\
    forall k, In k (keys metadata) -> stem_done listing k = false ->
              In k (keys m).
Proof.
  intros ND.
  destruct (prune_only_done metadata listing ND) as (m & E & _ & Hsound).
  exists m. split; [exact E|]. intros k Hin Hd.
  destruct (in_dec string_dec k (keys m)) as [Hm | Hm]; [exact Hm|].
  rewrite (Hsound k Hin Hm) in Hd. discriminate.
Qed.

(** X3.  When the stems of the keys, taken in the order of the file names,
    strictly increase, the pruning is the membership test: a key stays
    exactly when its stem is not among the stems of the directory. *)
Theorem X3_prune_is_membership_when_aligned (metadata : dict V)
    (listing : list string) :
  NoDup (keys metadata) ->
  aligned metadata ->
  exists m, prune metadata listing = Return m /\
    forall k, In k (keys metadata) ->
              (In k (keys m) <-> stem_done listing k = false).
Proof. apply prune_oracle_when_aligned. Qed.

(** X4.  When no key has its stem in the directory, and so when the
    directory is empty, the pruning returns the metadata as loaded. *)
Theorem X4_prune_without_match_is_identity (metadata : dict V)
    (listing : list string) :
  (forall k, In k (keys metadata) -> stem_done listing k = false) ->
  delete_list metadata listing = [] /\
  prune metadata listing = Return metadata.
Proof.
  intros Hnone.
  assert (E : delete_list metadata listing = []).
  { destruct (delete_list metadata listing) as [|k l] eqn:El; [reflexivity|].
    assert (Hk : In k (delete_list metadata listing))
      by (rewrite El; now left).
    apply delete_list_sound in Hk. destruct Hk as [Hin Hd].
    rewrite (Hnone k Hin) in Hd. discriminate. }
  split; [exact E|]. unfold prune. rewrite E. reflexivity.
Qed.

Lemma length_insert_sorted {A : Type} (key : A -> string) (x : A)
    (l : list A) :
  List.length (insert_sorted key x l) = S (List.length l).
Proof.
  induction l as [|y l IH]; simpl; [reflexivity|].
  destruct (PyStr.leb (key x) (key y)); simpl; [reflexivity|]. now rewrite IH.
Qed.

Lemma length_sort_by {A : Type} (key : A -> string) (l : list A) :
  List.length (sort_by key l) = List.length l.
Proof.
  induction l as [|x l IH]; simpl; [reflexivity|].
  now rewrite length_insert_sorted, IH.
Qed.

(** Each deletion uses up one entry of [done]. *)
Lemma scan_length (done ks delete : list string) :
  (List.length delete <= List.length done)%nat ->
  (List.length (scan done ks delete) <= List.length done)%nat.
Proof.
  revert delete. induction ks as [|k ks IH]; intros delete H; simpl.
  - exact H.
  - destruct (PyStr.mem (PyStr.stem k) (skipn (List.length delete) done))
      eqn:E; [|now apply IH].
    apply IH. rewrite length_app, Nat.add_1_r.
    destruct (Nat.eq_dec (List.length delete) (List.length done)) as [Eq|Ne];
      [|lia].
    rewrite Eq, skipn_all in E. discriminate.
Qed.

Lemma length_remove_key (x : string) (d : dict V) :
  NoDup (keys d) -> In x (keys d) ->
  S (List.length (remove_key x d)) = List.length d.
Proof.
  unfold keys, remove_key. induction d as [|[k v] d IH]; simpl;
    intros ND Hin; [destruct Hin|].
  inversion ND as [|? ? Hk ND']; subst.
  destruct (String.eqb x k) eqn:E; simpl.
  - apply String.eqb_eq in E. subst k. do 2 f_equal.
    apply forallb_filter_id. apply forallb_forall. intros [k' v'] Hkv. simpl.
    destruct (String.eqb x k') eqn:E'; [|reflexivity].
    apply String.eqb_eq in E'. subst k'. exfalso. apply Hk.
    apply in_map_iff. exists (x, v'). split; [reflexivity | assumption].
  - f_equal. apply IH; [assumption|].
    destruct Hin as [<- | Hin]; [|assumption].
    rewrite String.eqb_refl in E. discriminate.
Qed.

Lemma pop_all_length (delete : list string) (d m : dict V) :
  NoDup (keys d) -> NoDup delete -> incl delete (keys d) ->
  pop_all delete d = Return m ->
  (List.length m + List.length delete)%nat = List.length d.
Proof.
  revert d. induction delete as [|x delete IH]; intros d NDd ND Hincl.
  - simpl. intros [= <-]. lia.
  - inversion ND as [|? ? Hx ND']; subst. cbn [pop_all].
    destruct (lookup_In x d) as [v Hv]; [apply Hincl; now left|].
    unfold pop. rewrite Hv. cbn [bind]. intros E.
    apply IH in E; try assumption.
    + rewrite <- (length_remove_key x d NDd); [|apply Hincl; now left].
      cbn [List.length]. lia.
    + unfold remove_key. now apply NoDup_keys_filter.
    + intros y Hy. apply In_keys_remove_key. split;
        [apply Hincl; now right | intros ->; contradiction].
Qed.

(** X5.  The pruning removes at most as many keys as the directory has
    entries, whatever their names: each removal uses up one entry. *)
Theorem X5_prune_removes_at_most_one_key_per_entry (metadata : dict V)
    (listing : list string) :
  NoDup (keys metadata) ->
  exists m, prune metadata listing = Return m /\
    (List.length m + List.length (delete_list metadata listing))%nat =
      List.length metadata /\
    (List.length (delete_list metadata listing) <= List.length listing)%nat /\
    (List.length metadata <= List.length m + List.length listing)%nat.
Proof.
  intros ND.
  destruct (prune_only_done metadata listing ND) as (m & E & _).
  exists m. split; [exact E|].
  assert (H1 : (List.length m + List.length (delete_list metadata listing))%nat
               = List.length metadata).
  { apply (pop_all_length _ metadata m ND);
      [now apply delete_list_NoDup | apply delete_list_incl | exact E]. }
  assert (H2 : (List.length (delete_list metadata listing)
                <= List.length listing)%nat).
  { unfold delete_list.
    etransitivity; [apply scan_length; simpl; lia|].
    unfold done_of, sort. now rewrite length_sort_by, length_map. }
  repeat split; [exact H1 | exact H2 | lia].
Qed.

End PruningMore.

(** ** Stems: what the pruning compares *)

Section Stems.

Local Open Scope string_scope.










End Stems.

(** ** [__getitem__]: indices, strides and frame counts *)

Section GetitemMore.
Context `{cv : cv2.Library}.

Implicit Types (files : string -> video) (st : state) (self : VideoDataset).

Lemma getitem_list_outside {A : Type} (l : list A) (idx : Z) :
  Z.of_nat (List.length l) <= idx \/ idx < - Z.of_nat (List.length l) ->
  getitem_list l idx = Raise IndexError.
Proof.
  intros H. unfold getitem_list.
  destruct (idx <? 0) eqn:E1.
  - apply Z.ltb_lt in E1.
    destruct (idx + Z.of_nat (List.length l) <? 0) eqn:E2; [reflexivity|].
    apply Z.ltb_ge in E2. lia.
  - apply Z.ltb_ge in E1.
    destruct (idx <? 0) eqn:E2; [apply Z.ltb_lt in E2; lia|].
    destruct (Z.of_nat (List.length l) <=? idx) eqn:E3; [reflexivity|].
    apply Z.leb_gt in E3. lia.
Qed.

Lemma getitem_list_negative {A : Type} (l : list A) (idx : Z) :
  0 <= idx < Z.of_nat (List.length l) ->
  getitem_list l (idx - Z.of_nat (List.length l)) = getitem_list l idx.
Proof.
  intros H. unfold getitem_list.
  destruct (idx - Z.of_nat (List.length l) <? 0) eqn:E1;
    [|apply Z.ltb_ge in E1; lia].
  destruct (idx <? 0) eqn:E2; [apply Z.ltb_lt in E2; lia|].
  now replace (idx - Z.of_nat (List.length l) + Z.of_nat (List.length l))
    with idx by lia.
Qed.

Lemma getitem_list_In {A : Type} (l : list A) (idx : Z) (a : A) :
  getitem_list l idx = Return a -> In a l.
Proof.
  unfold getitem_list. destruct (_ || _); [discriminate|].
  destruct (nth_error l _) as [b|] eqn:E; [|discriminate].
  intros [= <-]. eapply nth_error_In; eassumption.
Qed.

Lemma getitem_list_inside {A : Type} (l : list A) (idx : Z) :
  - Z.of_nat (List.length l) <= idx < Z.of_nat (List.length l) ->
  exists a, getitem_list l idx = Return a /\ In a l.
Proof.
  intros H. unfold getitem_list.
  set (i := if idx <? 0 then idx + Z.of_nat (List.length l) else idx).
  assert (Hi : 0 <= i < Z.of_nat (List.length l)).
  { subst i. destruct (idx <? 0) eqn:E;
      [apply Z.ltb_lt in E | apply Z.ltb_ge in E]; lia. }
  destruct (i <? 0) eqn:E1; [apply Z.ltb_lt in E1; lia|].
  destruct (Z.of_nat (List.length l) <=? i) eqn:E2;
    [apply Z.leb_le in E2; lia|]. cbn [orb].
  destruct (nth_error l (Z.to_nat i)) as [a|] eqn:E.
  - exists a. split; [reflexivity | eapply nth_error_In; eassumption].
  - apply nth_error_None in E. lia.
Qed.

(** X7.  An index at or beyond the length, or below its negative, raises
    [IndexError] out of the call (it is not one of the handled conditions)
    and leaves the state as it was; an index in between selects a path of
    the dataset, a negative one counting from the end. *)
Theorem X7_index_out_of_range_raises files st (idx : Z) :
  (len (self_ st) <= idx \/ idx < - len (self_ st) ->
   getitem files st idx = (Raise IndexError, st)) /\
  (0 <= idx < len (self_ st) ->
   getitem files st (idx - len (self_ st)) = getitem files st idx) /\
  (- len (self_ st) <= idx < len (self_ st) ->
   exists path,
     getitem_list (path_to_all_videos (self_ st)) idx = Return path /\
     In path (path_to_all_videos (self_ st)) /\
     fst (getitem files st idx) <> Raise IndexError).
Proof.
  unfold len. split; [|split].
  - intros H. apply getitem_propagates; [|reflexivity].
    unfold getitem_try. now rewrite (getitem_list_outside _ _ H).
  - intros H. unfold getitem, getitem_try.
    now rewrite (getitem_list_negative _ _ H).
  - intros H. destruct (getitem_list_inside _ _ H) as (path & E & Hin).
    exists path. split; [exact E|]. split; [exact Hin|].
    unfold getitem, getitem_try. rewrite E. cbn [bind source].
    destruct (PyFloat.int (CAP_PROP_FRAME_COUNT (files path))) as [v_len|e]
      eqn:El; cbn [bind];
      [|unfold PyFloat.int in El; destruct (Prim2SF _); try discriminate;
        injection El as <-; cbn; discriminate].
    destruct (v_len =? 0); [cbn; discriminate|].
    destruct (PyFloat.int (CAP_PROP_FRAME_HEIGHT (files path) * _)%float)
      as [h|e] eqn:Eh; cbn [bind];
      [|unfold PyFloat.int in Eh; destruct (Prim2SF _); try discriminate;
        injection Eh as <-; cbn; discriminate].
    destruct (PyFloat.int (CAP_PROP_FRAME_WIDTH (files path) * _)%float)
      as [w|e] eqn:Ew; cbn [bind];
      [|unfold PyFloat.int in Ew; destruct (Prim2SF _); try discriminate;
        injection Ew as <-; cbn; discriminate].
    destruct (extract _ _ _ _ _ _) as [fs|e] eqn:Ex; cbn [bind].
    + destruct fs as [|f fs]; [cbn; discriminate|].
      unfold getitem_dict.
      destruct (lookup path (metadata (self_ st))) as [record|]; cbn [bind];
        [|cbn; discriminate].
      unfold getitem_json. destruct record; cbn; try discriminate.
      unfold getitem_dict. destruct (lookup "label" fields); cbn; discriminate.
    + apply extract_Raise in Ex. destruct Ex as [-> | [code ->]];
        cbn; discriminate.
Qed.

Lemma range_upto_nonempty (v_len stop : Z) :
  0 < v_len -> 0 < stop ->
  exists rest, range_upto v_len stop = 0 :: rest.
Proof.
  intros H1 H2. rewrite range_upto_positive by lia. unfold range.
  destruct (Z.to_nat (Z.min v_len stop)) as [|k] eqn:E; [lia|].
  cbn [seq map]. eauto.
Qed.

Lemma range_upto_negative (v_len stop : Z) :
  v_len < 0 -> range_upto v_len stop = [].
Proof.
  intros H. unfold range_upto, range. rewrite Z.max_r by lia.
  destruct (stop <? 0) eqn:E;
    [apply Z.ltb_lt in E | apply Z.ltb_ge in E].
  - now replace (Z.to_nat (0 + stop)) with O by lia.
  - now replace (Z.to_nat (Z.min 0 stop)) with O by lia.
Qed.

(** X8.  With a stride of zero, a video that has frames makes the call
    raise [ZeroDivisionError] at the first position; the error list is not
    touched. *)
Theorem X8_zero_stride_raises files st (idx : Z) (path : string)
    (v_len v_height v_width : Z) :
  window (self_ st) = 0 ->
  getitem_list (path_to_all_videos (self_ st)) idx = Return path ->
  PyFloat.int (CAP_PROP_FRAME_COUNT (files path)) = Return v_len ->
  0 < v_len ->
  0 < max_v_len (self_ st) ->
  PyFloat.int (CAP_PROP_FRAME_HEIGHT (files path) * resize (self_ st))%float
    = Return v_height ->
  PyFloat.int (CAP_PROP_FRAME_WIDTH (files path) * resize (self_ st))%float
    = Return v_width ->
  getitem files st idx = (Raise ZeroDivisionError, st).
Proof.
  intros Hw Hp Hl Hpos Hmax Hh Hwd.
  apply getitem_propagates; [|reflexivity].
  rewrite (getitem_try_steps _ _ _ _ _ _ _ Hp Hl ltac:(lia) Hh Hwd).
  destruct (range_upto_nonempty v_len (max_v_len (self_ st)) Hpos Hmax)
    as (rest & ->).
  cbn [extract]. rewrite Hw. reflexivity.
Qed.

(** X9.  Only a frame count of exactly zero is taken as a missing video.
    A negative count leaves the loop without positions, and the call
    reports the video as having no frames, whatever the stride. *)
Theorem X9_negative_frame_count_is_NoFrames files st (idx : Z)
    (path : string) (v_len v_height v_width : Z) :
  getitem_list (path_to_all_videos (self_ st)) idx = Return path ->
  PyFloat.int (CAP_PROP_FRAME_COUNT (files path)) = Return v_len ->
  v_len < 0 ->
  PyFloat.int (CAP_PROP_FRAME_HEIGHT (files path) * resize (self_ st))%float
    = Return v_height ->
  PyFloat.int (CAP_PROP_FRAME_WIDTH (files path) * resize (self_ st))%float
    = Return v_width ->
  getitem files st idx =
    (Return None,
     {| self_ := append_error (self_ st) (NoFrames path);
        stdout :=
          stdout st ++ [("Video " ++ path ++ " has no frames")%string] |}).
Proof.
  intros Hp Hl Hneg Hh Hw.
  assert (E : getitem_try files (self_ st) idx = Raise (NoFrames path)).
  { rewrite (getitem_try_steps _ _ _ _ _ _ _ Hp Hl ltac:(lia) Hh Hw).
    now rewrite (range_upto_negative _ _ Hneg). }
  unfold getitem. rewrite E. reflexivity.
Qed.

Lemma extract_length (window v_width v_height : Z) (positions : list Z)
    (v_cap : VideoCapture) (acc frames : list cv2.Mat) :
  extract window v_width v_height positions v_cap acc = Return frames ->
  (List.length frames <= List.length acc + List.length positions)%nat.
Proof.
  revert v_cap acc. induction positions as [|i rest IH]; intros v_cap acc.
  - simpl. intros [= <-]. lia.
  - cbn [extract List.length]. destruct (py_mod i window) as [r|e];
      cbn [bind]; [|discriminate].
    destruct (r =? 0);
      [|intros H; apply IH in H; lia].
    destruct (retrieve (grab v_cap)) as [m|];
      [|intros H; apply IH in H; lia].
    destruct (call (cv2.cvtColor m cv2.COLOR_BGR2RGB)) as [m1|e];
      cbn [bind]; [|discriminate].
    destruct (call (cv2.resize m1 (v_width, v_height))) as [m2|e];
      cbn [bind]; [|discriminate].
    intros H. apply IH in H. rewrite length_app in H. cbn in H. lia.
Qed.

Lemma length_range (n : Z) : List.length (range n) = Z.to_nat n.
Proof. unfold range. now rewrite length_map, length_seq. Qed.

(** X10.  A returned stack is never empty and never holds more frames than
    the cap of 1440 or than the video reports, whatever the stride. *)
Theorem X10_stack_size_is_bounded files st (idx : Z) (p : string)
    (frames : list cv2.Mat) (label : json) :
  max_v_len (self_ st) = 1440 ->
  fst (getitem files st idx) = Return (Some (p, frames, label)) ->
  (1 <= List.length frames <= 1440)%nat /\
  exists v_len,
    PyFloat.int (CAP_PROP_FRAME_COUNT (files p)) = Return v_len /\
    0 < v_len /\
    Z.of_nat (List.length frames) <= v_len.
Proof.
  intros Hmax H. apply getitem_Some in H. destruct H as [H _].
  apply getitem_try_Return in H.
  destruct H as (v_len & h & w & _ & Hl & Hz & _ & _ & Hx & Hne).
  pose proof (extract_length _ _ _ _ _ _ _ Hx) as Hlen. cbn in Hlen.
  assert (Hpos : 0 < v_len).
  { destruct (Z_lt_le_dec v_len 0) as [Hneg|]; [|lia].
    rewrite (range_upto_negative _ _ Hneg) in Hx. cbn in Hx.
    injection Hx as <-. congruence. }
  rewrite Hmax, range_upto_positive, length_range in Hlen by lia.
  split.
  - split; [destruct frames; [congruence | cbn; lia] | lia].
  - exists v_len. repeat split; [exact Hl | exact Hpos | lia].
Qed.

(** Positions the loop does not select, or that lie beyond its range, are
    never decoded: two videos that agree on the selected positions give
    the same loop. *)
Lemma extract_agree (window v_width v_height : Z) (v v' : video)
    (len start : nat) (acc : list cv2.Mat) :
  (forall i, In i (map Z.of_nat (seq start len)) -> i mod window = 0 ->
             decoded v (Z.to_nat i) = decoded v' (Z.to_nat i)) ->
  extract window v_width v_height (map Z.of_nat (seq start len))
    {| source := v; grabbed := start |} acc =
  extract window v_width v_height (map Z.of_nat (seq start len))
    {| source := v'; grabbed := start |} acc.
Proof.
  revert start acc. induction len as [|len IH]; intros start acc Hag;
    [reflexivity|].
  cbn [seq map extract].
  change (grab {| source := v; grabbed := start |})
    with {| source := v; grabbed := S start |}.
  change (grab {| source := v'; grabbed := start |})
    with {| source := v'; grabbed := S start |}.
  assert (Hrest : forall i, In i (map Z.of_nat (seq (S start) len)) ->
            i mod window = 0 ->
            decoded v (Z.to_nat i) = decoded v' (Z.to_nat i)).
  { intros i Hi. apply Hag. cbn [seq map]. now right. }
  destruct (py_mod (Z.of_nat start) window) as [r|e] eqn:Em; cbn [bind];
    [|reflexivity].
  destruct (r =? 0) eqn:Er; [|now apply IH].
  unfold retrieve; cbn [grabbed source].
  assert (Hd : decoded v start = decoded v' start).
  { rewrite <- (Nat2Z.id start). apply Hag; [cbn [seq map]; now left|].
    unfold py_mod in Em. destruct (window =? 0); [discriminate|].
    injection Em as <-. now apply Z.eqb_eq. }
  rewrite Hd. destruct (decoded v' start) as [m|]; [|now apply IH].
  destruct (call (cv2.cvtColor m cv2.COLOR_BGR2RGB)) as [m1|e];
    cbn [bind]; [|reflexivity].
  destruct (call (cv2.resize m1 (v_width, v_height))) as [m2|e];
    cbn [bind]; [|reflexivity].
  now apply IH.
Qed.

(** X11.  A call reads of a video only its three properties and the frames
    at the selected positions below the cap: another file with the same
    properties and the same frames there gives the same call, whatever its
    other frames are. *)
Theorem X11_only_selected_positions_are_decoded
    (files files' : string -> video) st (idx : Z) (path : string)
    (v_len : Z) :
  getitem_list (path_to_all_videos (self_ st)) idx = Return path ->
  CAP_PROP_FRAME_COUNT (files' path) = CAP_PROP_FRAME_COUNT (files path) ->
  CAP_PROP_FRAME_HEIGHT (files' path) = CAP_PROP_FRAME_HEIGHT (files path) ->
  CAP_PROP_FRAME_WIDTH (files' path) = CAP_PROP_FRAME_WIDTH (files path) ->
  PyFloat.int (CAP_PROP_FRAME_COUNT (files path)) = Return v_len ->
  (forall i, In i (range_upto v_len (max_v_len (self_ st))) ->
             i mod window (self_ st) = 0 ->
             decoded (files path) (Z.to_nat i) =
             decoded (files' path) (Z.to_nat i)) ->
  getitem files' st idx = getitem files st idx.
Proof.
  intros Hp Hc Hh Hw Hl Hag.
  assert (E : getitem_try files' (self_ st) idx =
              getitem_try files (self_ st) idx).
  { unfold getitem_try. rewrite Hp. cbn [bind source].
    rewrite Hc, Hh, Hw, Hl. cbn [bind].
    destruct (v_len =? 0); [reflexivity|].
    destruct (PyFloat.int (CAP_PROP_FRAME_HEIGHT (files path) * _)%float)
      as [h|e]; cbn [bind]; [|reflexivity].
    destruct (PyFloat.int (CAP_PROP_FRAME_WIDTH (files path) * _)%float)
      as [w|e]; cbn [bind]; [|reflexivity].
    unfold range_upto, range in *.
    rewrite (extract_agree _ _ _ (files' path) (files path)); [reflexivity|].
    intros i Hi Hm. symmetry. now apply Hag. }
  unfold getitem. now rewrite E.
Qed.

End GetitemMore.

(** ** Labels, the error list and whole batches *)

Section LabelsAndRuns.
Context `{cv : cv2.Library}.

Implicit Types (files : string -> video) (st : state) (self : VideoDataset).

Lemma getitem_try_label files self (idx : Z) (p : string)
    (frames : list cv2.Mat) (label : json) :
  getitem_try files self idx = Return (p, frames, label) ->
  exists fields,
    lookup p (metadata self) = Some (JObj fields) /\
    lookup "label" fields = Some label.
Proof.
  unfold getitem_try.
  destruct (getitem_list (path_to_all_videos self) idx) as [path|e];
    cbn [bind source]; [|discriminate].
  destruct (PyFloat.int (CAP_PROP_FRAME_COUNT (files path))) as [v_len|e];
    cbn [bind]; [|discriminate].
  destruct (v_len =? 0); [discriminate|].
  destruct (PyFloat.int (CAP_PROP_FRAME_HEIGHT (files path) * _)%float)
    as [h|e]; cbn [bind]; [|discriminate].
  destruct (PyFloat.int (CAP_PROP_FRAME_WIDTH (files path) * _)%float)
    as [w|e]; cbn [bind]; [|discriminate].
  destruct (extract _ _ _ _ _ _) as [fs|e]; cbn [bind]; [|discriminate].
  destruct fs as [|f fs]; [discriminate|].
  unfold getitem_dict.
  destruct (lookup path (metadata self)) as [record|] eqn:Er; cbn [bind];
    [|discriminate].
  unfold getitem_json, getitem_dict. destruct record; try discriminate.
  destruct (lookup "label" fields) as [l|] eqn:El; cbn [bind];
    [|discriminate].
  intros [= <- <- <-]. eauto.
Qed.

Lemma init_metadata (loaded : dict json) (listing : list string) (w : Z)
    (r : float) (t : option (list cv2.Mat -> list cv2.Mat))
    (ds : VideoDataset) :
  init loaded listing w r t = Return ds ->
  prune loaded listing = Return (metadata ds) /\
  path_to_all_videos ds = keys (metadata ds) /\
  error_paths ds = [] /\
  max_v_len ds = 1440.
Proof.
  unfold init. destruct (prune loaded listing) as [m|e]; cbn [bind];
    [|discriminate].
  intros [= <-]. repeat split.
Qed.

(** X12.  The label of a returned sample is the [label] field of the
    record that the metadata file holds for the sample's path: the pruning
    alters no record, and neither does any call. *)
Theorem X12_label_is_the_loaded_one files (loaded : dict json)
    (listing : list string) (w : Z) (r : float)
    (t : option (list cv2.Mat -> list cv2.Mat)) (ds : VideoDataset)
    st (idx : Z) (p : string) (frames : list cv2.Mat) (label : json) :
  NoDup (keys loaded) ->
  init loaded listing w r t = Return ds ->
  same_config (self_ st) ds ->
  fst (getitem files st idx) = Return (Some (p, frames, label)) ->
  exists fields,
    lookup p loaded = Some (JObj fields) /\
    lookup "label" fields = Some label.
Proof.
  intros ND Hinit Hcfg H. apply getitem_Some in H. destruct H as [H _].
  apply getitem_try_label in H. destruct H as (fields & Hrec & Hlab).
  exists fields. split; [|exact Hlab].
  destruct Hcfg as (Hm & _). rewrite Hm in Hrec.
  apply init_metadata in Hinit. destruct Hinit as (Hp & _).
  unfold prune in Hp.
  rewrite pop_all_filter in Hp;
    [|apply delete_list_incl | now apply delete_list_NoDup].
  injection Hp as Hp. rewrite <- Hp in Hrec.
  rewrite (lookup_filter
             (fun k => negb (PyStr.mem k (delete_list loaded listing))))
    in Hrec.
  destruct (negb _); [exact Hrec | discriminate].
Qed.

(** X13.  For a dataset that [__init__] built from a dictionary, every
    path that an index selects has a record in the metadata, the one of the
    metadata file: the lookup of line 100 cannot fail on the path, after
    any run of calls. *)
Theorem X13_every_path_has_a_record files (loaded : dict json)
    (listing : list string) (w : Z) (r : float)
    (t : option (list cv2.Mat -> list cv2.Mat)) (ds : VideoDataset)
    (out : list string) (idxs : list Z) (idx : Z) (path : string) :
  NoDup (keys loaded) ->
  init loaded listing w r t = Return ds ->
  let st := snd (fetches files {| self_ := ds; stdout := out |} idxs) in
  getitem_list (path_to_all_videos (self_ st)) idx = Return path ->
  exists record,
    getitem_dict (metadata (self_ st)) path = Return record /\
    lookup path loaded = Some record.
Proof.
  intros ND Hinit st Hp.
  pose proof (fetches_same_config files idxs {| self_ := ds; stdout := out |})
    as (Hm & Hpaths & _). fold st in Hm, Hpaths. cbn [self_] in Hm, Hpaths.
  apply init_metadata in Hinit. destruct Hinit as (Hprune & Hk & _).
  apply getitem_list_In in Hp. rewrite Hpaths, Hk, <- Hm in Hp.
  destruct (lookup_In path (metadata (self_ st)) Hp) as [v Hv].
  exists v. split; [unfold getitem_dict; now rewrite Hv|].
  rewrite Hm in Hv. unfold prune in Hprune.
  rewrite pop_all_filter in Hprune;
    [|apply delete_list_incl | now apply delete_list_NoDup].
  injection Hprune as Hprune. rewrite <- Hprune in Hv.
  rewrite (lookup_filter
             (fun k => negb (PyStr.mem k (delete_list loaded listing))))
    in Hv.
  destruct (negb _); [exact Hv | discriminate].
Qed.

(** X14.  Once the frames are there, a record that is no object or has no
    [label] field makes the call raise ([TypeError], [KeyError]): the
    exception leaves the call and nothing is recorded. *)
Theorem X14_label_lookup_failure_raises files st (idx : Z) (path : string)
    (v_len v_height v_width : Z) (f : cv2.Mat) (fs : list cv2.Mat)
    (e : exn) :
  getitem_list (path_to_all_videos (self_ st)) idx = Return path ->
  PyFloat.int (CAP_PROP_FRAME_COUNT (files path)) = Return v_len ->
  v_len <> 0 ->
  PyFloat.int (CAP_PROP_FRAME_HEIGHT (files path) * resize (self_ st))%float
    = Return v_height ->
  PyFloat.int (CAP_PROP_FRAME_WIDTH (files path) * resize (self_ st))%float
    = Return v_width ->
  extract (window (self_ st)) v_width v_height
    (range_upto v_len (max_v_len (self_ st)))
    {| source := files path; grabbed := O |} [] = Return (f :: fs) ->
  (record <- getitem_dict (metadata (self_ st)) path ;;
   getitem_json record "label") = Raise e ->
  getitem files st idx = (Raise e, st) /\
  (e = KeyError path \/ e = KeyError "label" \/ e = TypeError).
Proof.
  intros Hp Hl Hz Hh Hw Hx He.
  assert (Hkind : e = KeyError path \/ e = KeyError "label" \/ e = TypeError).
  { unfold getitem_dict in He.
    destruct (lookup path (metadata (self_ st))) as [record|]; cbn [bind] in He;
      [|injection He as <-; now left].
    unfold getitem_json, getitem_dict in He.
    destruct record; try (injection He as <-; right; now right).
    destruct (lookup "label" fields); [discriminate|].
    injection He as <-. right. now left. }
  split; [|exact Hkind].
  apply getitem_propagates.
  - rewrite (getitem_try_steps _ _ _ _ _ _ _ Hp Hl Hz Hh Hw), Hx.
    cbn [bind].
    destruct (getitem_dict (metadata (self_ st)) path) as [record|e'];
      cbn [bind] in *; [|injection He as ->; reflexivity].
    destruct (getitem_json record "label"); cbn [bind]; [discriminate|].
    injection He as ->. reflexivity.
  - destruct Hkind as [-> | [-> | ->]]; reflexivity.
Qed.

Lemma getitem_try_fetches files (idxs : list Z) st (i : Z) :
  getitem_try files (self_ (snd (fetches files st idxs))) i =
  getitem_try files (self_ st) i.
Proof.
  revert st. induction idxs as [|idx rest IH]; intros st; [reflexivity|].
  rewrite fetches_cons. cbn [snd]. rewrite IH. apply getitem_try_after.
Qed.

(** X15.  What a call returns or raises does not depend on the calls made
    before it: nothing is cached, and the error list is never read. *)
Theorem X15_earlier_calls_do_not_matter files st (idxs : list Z) (i : Z) :
  fst (getitem files (snd (fetches files st idxs)) i) =
  fst (getitem files st i).
Proof.
  unfold getitem. rewrite getitem_try_fetches.
  destruct (getitem_try files (self_ st) i) as [s|e]; [reflexivity|].
  destruct e; reflexivity.
Qed.


Lemma getitem_try_recoverable_path files self (idx : Z) (e : exn) :
  getitem_try files self idx = Raise e ->
  recoverable e = true ->
  exists p, In p (path_to_all_videos self) /\
            (e = NoVideo p \/ e = NoFrames p).
Proof.
  unfold getitem_try.
  destruct (getitem_list (path_to_all_videos self) idx) as [path|e0] eqn:Hp;
    cbn [bind source].
  - apply getitem_list_In in Hp.
    destruct (PyFloat.int (CAP_PROP_FRAME_COUNT (files path)))
      as [v_len|e0] eqn:El; cbn [bind].
    + destruct (v_len =? 0); [intros [= <-] _; eauto|].
      destruct (PyFloat.int (CAP_PROP_FRAME_HEIGHT (files path) * _)%float)
        as [h|e0] eqn:Eh; cbn [bind].
      * destruct (PyFloat.int (CAP_PROP_FRAME_WIDTH (files path) * _)%float)
          as [w|e0] eqn:Ew; cbn [bind].
        -- destruct (extract _ _ _ _ _ _) as [fs|e0] eqn:Ex; cbn [bind].
           ++ destruct fs as [|f fs]; [intros [= <-] _; eauto|].
              unfold getitem_dict.
              destruct (lookup path (metadata self)) as [record|];
                cbn [bind]; [|intros [= <-]; discriminate].
              unfold getitem_json, getitem_dict.
              destruct record; try (intros [= <-]; discriminate).
              destruct (lookup "label" fields); cbn [bind];
                [discriminate | intros [= <-]; discriminate].
           ++ apply extract_Raise in Ex. intros [= <-].
              destruct Ex as [-> | [code ->]]; discriminate.
        -- unfold PyFloat.int in Ew. intros [= <-].
           destruct (Prim2SF _); try discriminate;
             injection Ew as <-; discriminate.
      * unfold PyFloat.int in Eh. intros [= <-].
        destruct (Prim2SF _); try discriminate;
          injection Eh as <-; discriminate.
    + unfold PyFloat.int in El. intros [= <-].
      destruct (Prim2SF _); try discriminate;
        injection El as <-; discriminate.
  - unfold getitem_list in Hp. intros [= <-].
    destruct (_ || _); [injection Hp as <-; discriminate|].
    destruct (nth_error _ _); [discriminate | injection Hp as <-; discriminate].
Qed.

(** The entries and the lines of one call. *)
Lemma getitem_records files st (idx : Z) :
  exists es lines,
    error_paths (self_ (snd (getitem files st idx))) =
      error_paths (self_ st) ++ es /\
    stdout (snd (getitem files st idx)) = stdout st ++ lines /\
    List.length lines = List.length es /\
    List.length es =
      (if returned_None (fst (getitem files st idx)) then 1 else 0)%nat /\
    Forall (fun e => exists p, In p (path_to_all_videos (self_ st)) /\
                               (e = NoVideo p \/ e = NoFrames p)) es.
Proof.
  destruct (getitem_try files (self_ st) idx) as [s|e] eqn:E.
  - rewrite (getitem_Return _ _ _ _ E). exists [], []. cbn.
    rewrite !app_nil_r. repeat split. constructor.
  - destruct (recoverable e) eqn:R.
    + destruct (getitem_recoverable _ _ _ _ E R) as (line & G). rewrite G.
      exists [e], [line]. cbn. repeat split.
      constructor; [|constructor].
      eapply getitem_try_recoverable_path; eassumption.
    + rewrite (getitem_propagates _ _ _ _ E R). exists [], []. cbn.
      rewrite !app_nil_r. repeat split. constructor.
Qed.

(** X17.  Over any run of calls the error list and the printed lines only
    grow, in step: one entry and one line for each call that returned
    [None], and every new entry is a [NoVideo] or a [NoFrames] that carries
    a path of the dataset. *)
Theorem X17_error_list_holds_dataset_paths files st (idxs : list Z) :
  exists es lines,
    error_paths (self_ (snd (fetches files st idxs))) =
      error_paths (self_ st) ++ es /\
    stdout (snd (fetches files st idxs)) = stdout st ++ lines /\
    List.length lines = List.length es /\
    List.length es = failures (fst (fetches files st idxs)) /\
    Forall (fun e => exists p, In p (path_to_all_videos (self_ st)) /\
                               (e = NoVideo p \/ e = NoFrames p)) es.
Proof.
  revert st. induction idxs as [|idx rest IH]; intros st.
  - exists [], []. cbn. rewrite !app_nil_r. repeat split. constructor.
  - rewrite fetches_cons. cbn [fst snd].
    destruct (getitem_records files st idx)
      as (es1 & l1 & E1 & O1 & L1 & N1 & F1).
    destruct (IH (snd (getitem files st idx)))
      as (es2 & l2 & E2 & O2 & L2 & N2 & F2).
    exists (es1 ++ es2), (l1 ++ l2).
    rewrite E2, E1, O2, O1, <- !app_assoc, !length_app.
    repeat split; try reflexivity; [lia | |].
    + rewrite N1, N2. unfold failures. cbn [filter].
      destruct (returned_None (fst (getitem files st idx))); cbn; lia.
    + apply Forall_app. split; [exact F1|].
      destruct (getitem_same_config files st idx) as (_ & Hp & _).
      rewrite Hp in F2. exact F2.
Qed.

End LabelsAndRuns.

(** ** The further properties on concrete datasets *)

Section MoreExamples.
Import Demo.

Local Open Scope float_scope.
Local Open Scope Z_scope.

Ltac distinct_strings :=
  repeat (constructor; [cbn; intuition discriminate|]); constructor.

Lemma X1_witness :
  exists (keep : string -> bool) (m : dict json),
    prune loaded listing = Return m /\
    m = filter (fun kv => keep (fst kv)) loaded /\
    NoDup (keys m) /\
    (forall k v, lookup k m = Some v -> lookup k loaded = Some v) /\
    (forall k, In k (keys m) -> In k (keys loaded)).
Proof.
  apply (X1_prune_keeps_order_and_records loaded listing). distinct_strings.
Defined.

Lemma X2_witness :
  exists m, prune loaded listing = Return m /\
    forall k, In k (keys loaded) -> stem_done listing k = false ->
              In k (keys m).
Proof.
  apply (X2_prune_removes_only_done_keys loaded listing). distinct_strings.
Defined.

Lemma X3_witness :
  exists m, prune loaded listing = Return m /\
    forall k, In k (keys loaded) ->
              (In k (keys m) <-> stem_done listing k = false).
Proof.
  apply (X3_prune_is_membership_when_aligned loaded listing).
  - distinct_strings.
  - unfold aligned. cbn. repeat constructor.
Defined.

Lemma X4_witness :
  delete_list loaded [] = [] /\ prune loaded [] = Return loaded.
Proof.
  apply (X4_prune_without_match_is_identity loaded []).
  intros k _. reflexivity.
Defined.

Lemma X5_witness :
  exists m, prune loaded listing = Return m /\
    (List.length m + List.length (delete_list loaded listing))%nat =
      List.length loaded /\
    (List.length (delete_list loaded listing) <= List.length listing)%nat /\
    (List.length loaded <= List.length m + List.length listing)%nat.
Proof.
  apply (X5_prune_removes_at_most_one_key_per_entry loaded listing).
  distinct_strings.
Defined.


Example index_bounds :
  getitem files (start 2 0.25) 4 = (Raise IndexError, start 2 0.25) /\
  getitem files (start 2 0.25) (-5) = (Raise IndexError, start 2 0.25) /\
  getitem files (start 2 0.25) (-4) = getitem files (start 2 0.25) 0.
Proof. repeat split; vm_compute; reflexivity. Qed.

Lemma X8_witness :
  getitem files (start 0 0.25) 0 = (Raise ZeroDivisionError, start 0 0.25).
Proof.
  apply (X8_zero_stride_raises (cv := cv) files (start 0 0.25) 0
           "five.mp4" 5 270 480).
  - reflexivity.
  - reflexivity.
  - vm_compute. reflexivity.
  - lia.
  - cbn. lia.
  - vm_compute. reflexivity.
  - vm_compute. reflexivity.
Defined.

Lemma X9_witness :
  getitem Cases.files (Cases.start 2 0.5) 1 =
    (Return None,
     {| self_ := append_error (Cases.dataset 2 0.5) (NoFrames "live.webm");
        stdout := ["Video live.webm has no frames"%string] |}).
Proof.
  apply (X9_negative_frame_count_is_NoFrames (cv := cv) Cases.files
           (Cases.start 2 0.5) 1 "live.webm" (-1) 540 960).
  - reflexivity.
  - vm_compute. reflexivity.
  - lia.
  - vm_compute. reflexivity.
  - vm_compute. reflexivity.
Defined.

Lemma X10_witness :
  (1 <= List.length
          [resized 270 480 0; resized 270 480 2; resized 270 480 4]
   <= 1440)%nat /\
  exists v_len,
    PyFloat.int (CAP_PROP_FRAME_COUNT (files "five.mp4")) = Return v_len /\
    0 < v_len /\
    Z.of_nat (List.length
                [resized 270 480 0; resized 270 480 2; resized 270 480 4])
    <= v_len.
Proof.
  apply (X10_stack_size_is_bounded (cv := cv) files (start 2 0.25) 0
           "five.mp4" _ (JStr "REAL")).
  - reflexivity.
  - vm_compute. reflexivity.
Defined.

Lemma X11_witness :
  getitem Cases.files (start 2 0.25) 0 = getitem files (start 2 0.25) 0.
Proof.
  apply (X11_only_selected_positions_are_decoded (cv := cv) files
           Cases.files (start 2 0.25) 0 "five.mp4" 5).
  - reflexivity.
  - reflexivity.
  - vm_compute. reflexivity.
  - vm_compute. reflexivity.
  - vm_compute. reflexivity.
  - intros i Hi Hm. vm_compute in Hi.
    destruct Hi as [<- | [<- | [<- | [<- | [<- | []]]]]];
      first [reflexivity | discriminate Hm].
Defined.

Example unselected_frames_differ :
  decoded (Cases.files "five.mp4") 1 = None /\
  decoded (files "five.mp4") 1 = Some (bgr 1083 1923 1).
Proof. split; reflexivity. Qed.

Lemma X12_witness :
  exists fields,
    lookup "five.mp4" loaded = Some (JObj fields) /\
    lookup "label" fields = Some (JStr "REAL").
Proof.
  apply (X12_label_is_the_loaded_one (cv := cv) files loaded listing 2 0.25
           None (dataset 2 0.25) (start 2 0.25) 0 "five.mp4"
           [resized 270 480 0; resized 270 480 2; resized 270 480 4]).
  - distinct_strings.
  - reflexivity.
  - repeat split.
  - vm_compute. reflexivity.
Defined.

Lemma X13_witness :
  exists record,
    getitem_dict
      (metadata (self_ (snd (fetches files (start 2 0.25) [1; 2]))))
      "five.mp4" = Return record /\
    lookup "five.mp4" loaded = Some record.
Proof.
  apply (X13_every_path_has_a_record (cv := cv) files loaded listing 2 0.25
           None (dataset 2 0.25) [] [1; 2] 0 "five.mp4").
  - distinct_strings.
  - reflexivity.
  - vm_compute. reflexivity.
Defined.

Lemma X14_witness :
  getitem Cases.files (Cases.start 2 0.25) 0 =
    (Raise (KeyError "label"), Cases.start 2 0.25) /\
  (KeyError "label" = KeyError "five.mp4" \/
   KeyError "label" = KeyError "label" \/
   KeyError "label" = TypeError).
Proof.
  apply (X14_label_lookup_failure_raises (cv := cv) Cases.files
           (Cases.start 2 0.25) 0 "five.mp4" 5 270 480
           (resized 270 480 0) [resized 270 480 2; resized 270 480 4]).
  - reflexivity.
  - vm_compute. reflexivity.
  - lia.
  - vm_compute. reflexivity.
  - vm_compute. reflexivity.
  - vm_compute. reflexivity.
  - reflexivity.
Defined.


Example collate_after_fetch :
  (items <- fst (fetch_batch files (start 2 0.25) [1; 0; 2; 1]) ;;
   collate_fn (as_batch items)) =
  Return {| video_path := [PyStr_ "five.mp4"];
            frame := [PyArray [resized 270 480 0; resized 270 480 2;
                               resized 270 480 4]];
            label := [PyJson (JStr "REAL")] |}.
Proof. vm_compute. reflexivity. Qed.

End MoreExamples.
